(** * MEXC monitor: state store, analysis pass, pruning pass and stream client

    A shallow embedding of [monitor] (the [Monitor] type with [handleTrade],
    [handleTicker], [analyzeData], [pollPrices] and [cleanup]) and of the
    read/reconnect loop of [mexc.Client], followed by the properties the
    specification states about them.

    Conventions of the embedding:
    - [float64] is Rocq's primitive binary64 [float];
    - [int] and [int64] are [Z] with the 64-bit wrap-around written out
      ([wrap64]);
    - a [time.Time] instant is a [Z] count of nanoseconds and [Add] on it is
      exact; a [time.Duration] is an [int64] count of nanoseconds;
    - Go maps are [gmap string _]; slices are lists;
    - every reading of [time.Now()] is an argument of the operation that
      makes it, and the collaborators (database, bot, REST client, network)
      are records of the answers they give;
    - the mutex [mu] makes every operation below atomic, so each is a
      function from the store before to the store after. *)

From stdpp Require Import gmap strings list fin_maps sorting.
From Stdlib Require Import ZArith Floats.

Local Open Scope Z_scope.

(** ** Go values *)

Module Go.

(** A Go [error] value: [None] is [nil]. *)
Abbreviation error := (option string).

(** A [(T, error)] pair of return values. *)
Inductive result (A : Type) : Type :=
| Ok (a : A)
| Err (msg : string).
Arguments Ok {A} a.
Arguments Err {A} msg.

#[export] Instance result_bind : MBind result := fun A B f r =>
  match r with
  | Ok a => f a
  | Err msg => Err msg
  end.

(** Two's complement reduction of an integer to 64 bits. *)
Definition wrap64 (z : Z) : Z := (z + 2 ^ 63) mod 2 ^ 64 - 2 ^ 63.

(** [time.Time] and [time.Duration]. *)
Abbreviation Time := Z (only parsing).
Abbreviation Duration := Z (only parsing).

Definition Second : Duration := 1000000000.
Definition Minute : Duration := 60 * Second.

Definition Before (t u : Time) : bool := t <? u.
Definition After (t u : Time) : bool := u <? t.
Definition Equal (t u : Time) : bool := t =? u.
Definition Add (t : Time) (d : Duration) : Time := t + d.

(** The value a float64-to-int conversion yields when the truncated value
    does not fit (the language leaves it to the implementation; this is the
    amd64 result). *)
Definition int_indefinite : Z := - 2 ^ 63.

(** [int(f)] for a [float64] [f]: truncation toward zero. *)
Definition int_of_float (f : float) : Z :=
  match Prim2SF f with
  | S754_zero _ => 0
  | S754_finite s m e =>
      let mag := Z.shiftl (Z.pos m) e in
      let z := if s then - mag else mag in
      if (- 2 ^ 63 <=? z) && (z <? 2 ^ 63) then z else int_indefinite
  | S754_infinity _ | S754_nan => int_indefinite
  end.

(** [s[i]] on a slice: out of range is a run-time panic, here [Err]. *)
Definition index {A : Type} (s : list A) (i : nat) : result A :=
  match s !! i with
  | Some x => Ok x
  | None => Err "index out of range"
  end.

End Go.

Import Go.

(** ** Data model *)

Module PriceData.
Record t : Type := mk { Price : float; Timestamp : Time }.
End PriceData.

Module VolumeData.
Record t : Type := mk { Volume : Z; Timestamp : Time }.
End VolumeData.

Module Settings.
Record t : Type := mk { TimeInterval : Z; PriceChange : float; MinVolume : Z }.
End Settings.

Module TradeData.
Record t : Type := mk {
  Symbol : string; Price : string; Quantity : string;
  Timestamp : Z; IsBuyer : bool }.
End TradeData.

Module TickerData.
Record t : Type := mk { Symbol : string; Price : string; Timestamp : Z }.
End TickerData.

Module TickerResponse.
Record t : Type := mk { Symbol : string; Price : string }.
End TickerResponse.

Module TradeResponse.
Record t : Type := mk {
  Symbol : string; Price : string; Qty : string;
  Time : Z; IsBuyerMaker : bool }.
End TradeResponse.

(** The [interface{}] payload an [EventHandler] receives. *)
Inductive Event : Type :=
| TradeEvent (trade : TradeData.t)
| TickerEvent (ticker : TickerData.t)
| OtherEvent.

(** The collaborators of the monitor, as the answers they give during one
    call: [database.Database], [telegram.Bot] and [mexc.RESTClient]. *)
Record Database : Type := {
  GetSettings : result Settings.t;
  IsBlacklisted : string -> result bool;
  CleanupExpiredBlacklist : error }.

Record Bot : Type := {
  SendAlert : string -> float -> Z -> Time -> error }.

Record RESTClient : Type := {
  GetAllTickers : result (list TickerResponse.t);
  GetRecentTrades : string -> result (list TradeResponse.t) }.

(** The state store of [Monitor]: [priceHistory] and [volumeData]. *)
Record Monitor : Type := {
  priceHistory : gmap string (list PriceData.t);
  volumeData : gmap string VolumeData.t }.

(** The arguments of one [SendAlert] call. *)
Record AlertEvent : Type := {
  alertSymbol : string;
  alertChange : float;
  alertVolume : Z;
  alertAt : Time }.

(** The running state of one analysis pass: the store, the alerts handed to
    the bot so far (oldest first) and the deliveries that were logged as
    failed. *)
Record Pass : Type := {
  store : Monitor;
  sent : list AlertEvent;
  failed : list (string * string) }.

(** ** Ingestion: [handleTrade], [handleTicker] and [pollPrices] *)

Section Ingestion.

(** [strconv.ParseFloat(s, 64)]. *)
Variable ParseFloat : string -> result float.

(** [handleTrade], called at instant [now]. *)
Definition handleTrade (now : Time) (data : Event) (m : Monitor) : Monitor :=
  match data with
  | TradeEvent trade =>
      match ParseFloat (TradeData.Price trade) with
      | Err _ => m
      | Ok price =>
          match ParseFloat (TradeData.Quantity trade) with
          | Err _ => m
          | Ok quantity =>
              let volumeUSD := int_of_float (price * quantity) in
              match volumeData m !! TradeData.Symbol trade with
              | Some volData =>
                  {| priceHistory := priceHistory m;
                     volumeData :=
                       <[TradeData.Symbol trade :=
                           VolumeData.mk
                             (wrap64 (VolumeData.Volume volData + volumeUSD)) now]>
                         (volumeData m) |}
              | None =>
                  {| priceHistory := priceHistory m;
                     volumeData :=
                       <[TradeData.Symbol trade := VolumeData.mk volumeUSD now]>
                         (volumeData m) |}
              end
          end
      end
  | _ => m
  end.

(** Appending a sample to the history of [symbol], as both [handleTicker]
    and [pollPrices] do. *)
Definition appendPrice (symbol : string) (priceData : PriceData.t)
    (m : Monitor) : Monitor :=
  match priceHistory m !! symbol with
  | Some history =>
      {| priceHistory := <[symbol := history ++ [priceData]]> (priceHistory m);
         volumeData := volumeData m |}
  | None =>
      {| priceHistory := <[symbol := [priceData]]> (priceHistory m);
         volumeData := volumeData m |}
  end.

(** [handleTicker], called at instant [now]. *)
Definition handleTicker (now : Time) (data : Event) (m : Monitor) : Monitor :=
  match data with
  | TickerEvent ticker =>
      match ParseFloat (TickerData.Price ticker) with
      | Err _ => m
      | Ok price =>
          appendPrice (TickerData.Symbol ticker) (PriceData.mk price now) m
      end
  | _ => m
  end.

(** The handler being fed a run of stream trades, each with the instant at
    which it is handled. *)
Definition streamTrades (timed : list (Time * TradeData.t)) (m : Monitor)
    : Monitor :=
  foldl (fun m '(now, trade) => handleTrade now (TradeEvent trade) m) m timed.

(** Body of the first loop of [pollPrices]: one ticker of the snapshot. *)
Definition pollTicker (symbols : list string) (now : Time)
    (ticker : TickerResponse.t) (m : Monitor) : Monitor :=
  if existsb (fun symbol => String.eqb symbol (TickerResponse.Symbol ticker))
       symbols
  then
    match ParseFloat (TickerResponse.Price ticker) with
    | Err _ => m
    | Ok price =>
        appendPrice (TickerResponse.Symbol ticker) (PriceData.mk price now) m
    end
  else m.

(** Body of the inner loop of the second loop of [pollPrices]: a trade
    whose price or quantity does not parse is skipped, the notional of any
    other is added to [totalVolume]. *)
Definition addNotional (totalVolume : Z) (trade : TradeResponse.t) : Z :=
  match ParseFloat (TradeResponse.Price trade) with
  | Err _ => totalVolume
  | Ok price =>
      match ParseFloat (TradeResponse.Qty trade) with
      | Err _ => totalVolume
      | Ok qty => wrap64 (totalVolume + int_of_float (price * qty))
      end
  end.

(** The inner loop: [totalVolume] starts at [0]. *)
Definition totalVolume (trades : list TradeResponse.t) : Z :=
  foldl addNotional 0 trades.

(** Body of the second loop of [pollPrices]: the recent trades of one
    symbol, stored at instant [now]. *)
Definition pollSymbol (rest : RESTClient) (now : Time) (symbol : string)
    (m : Monitor) : Monitor :=
  match GetRecentTrades rest symbol with
  | Err _ => m
  | Ok trades =>
      {| priceHistory := priceHistory m;
         volumeData :=
           <[symbol := VolumeData.mk (totalVolume trades) now]> (volumeData m) |}
  end.

(** [pollPrices]. [clock k] is the [k]-th reading of [time.Now()] the call
    makes: one per ticker of the snapshot, then one per symbol. *)
Definition pollPrices (rest : RESTClient) (clock : nat -> Time)
    (symbols : list string) (m : Monitor) : Monitor :=
  match GetAllTickers rest with
  | Err _ => m
  | Ok tickers =>
      let m1 :=
        foldl (fun m '(k, ticker) => pollTicker symbols (clock k) ticker m)
          m (zip (seq 0 (length tickers)) tickers) in
      foldl (fun m '(k, symbol) => pollSymbol rest (clock k) symbol m)
        m1 (zip (seq (length tickers) (length symbols)) symbols)
  end.

(** A polled trade of [symbol], seen as the stream's trade record. *)
Definition asTradeData (symbol : string) (trade : TradeResponse.t)
    : TradeData.t :=
  TradeData.mk symbol (TradeResponse.Price trade) (TradeResponse.Qty trade)
    (TradeResponse.Time trade) (TradeResponse.IsBuyerMaker trade).

(** The same trades arriving on the stream, each handled at its own
    instant. *)
Definition asStream (symbol : string) (timed : list (Time * TradeResponse.t))
    : list (Time * TradeData.t) :=
  (fun entry => (entry.1, asTradeData symbol entry.2)) <$> timed.

(** Both the price and the quantity of the trade parse. *)
Definition parses (trade : TradeResponse.t) : Prop :=
  (exists price, ParseFloat (TradeResponse.Price trade) = Ok price)
  /\ (exists qty, ParseFloat (TradeResponse.Qty trade) = Ok qty).

End Ingestion.

(** ** The analysis pass: [analyzeData] *)

(** [now.Add(-time.Duration(settings.TimeInterval) * time.Second)]: the
    value of both [cutoffTime] and [targetTime]. *)
Definition cutoffTime (now : Time) (settings : Settings.t) : Time :=
  Add now (wrap64 (wrap64 (- Settings.TimeInterval settings) * Second)).

(** The backward scan [for i := len(history) - 1; i >= 0; i--], entered
    with [n = i + 1]: [Ok (Some p)] when [found], [Ok None] when the scan
    runs off the front. *)
Fixpoint scanBackward (history : list PriceData.t) (targetTime : Time)
    (n : nat) : result (option float) :=
  match n with
  | O => Ok None
  | S i =>
      sample ← index history i;
      if Before (PriceData.Timestamp sample) targetTime
         || Equal (PriceData.Timestamp sample) targetTime
      then Ok (Some (PriceData.Price sample))
      else scanBackward history targetTime i
  end.

(** The start-price lookup of [analyzeData]: the scan, then the fallback
    [if !found && len(history) > 0]; [startPrice] is declared with the zero
    value. *)
Definition startPriceLookup (history : list PriceData.t) (targetTime : Time)
    : result float :=
  found ← scanBackward history targetTime (length history);
  match found with
  | Some startPrice => Ok startPrice
  | None =>
      if (0 <? length history)%nat
      then oldest ← index history 0; Ok (PriceData.Price oldest)
      else Ok 0%float
  end.

(** [priceChange] as [analyzeData] computes it from the start price and the
    current price. *)
Definition percentChange (startPrice currentPrice : float) : float :=
  if (0 <? startPrice)%float
  then ((currentPrice - startPrice) / startPrice * 100)%float
  else 0%float.

(** The alert condition of [analyzeData]. *)
Definition conditionsMet (settings : Settings.t) (volume : Z)
    (priceChange : float) : bool :=
  (Settings.MinVolume settings <=? volume)
  && ((Settings.PriceChange settings <=? priceChange)%float
      || (priceChange <=? - Settings.PriceChange settings)%float).

(** The branch taken when the conditions are met: hand the alert to the
    bot, log a failed delivery, delete the accumulator. *)
Definition fireAlert (bot : Bot) (now : Time) (symbol : string)
    (priceChange : float) (volume : Z) (st : Pass) : Pass :=
  let alert := Build_AlertEvent symbol priceChange volume now in
  {| store :=
       {| priceHistory := priceHistory (store st);
          volumeData := delete symbol (volumeData (store st)) |};
     sent := sent st ++ [alert];
     failed :=
       match SendAlert bot symbol priceChange volume now with
       | Some err => failed st ++ [(symbol, err)]
       | None => failed st
       end |}.

(** One iteration of the [for symbol, history := range m.priceHistory]
    loop. Every [continue] returns the state unchanged. An [Err] of the
    start-price lookup stands for a run-time panic; the lookup never
    yields one. *)
Definition analyzeSymbol (db : Database) (bot : Bot) (settings : Settings.t)
    (now : Time) (symbol : string) (history : list PriceData.t) (st : Pass)
    : Pass :=
  match last history with
  | None => st
  | Some current =>
      let currentPrice := PriceData.Price current in
      let currentTime := PriceData.Timestamp current in
      if Before currentTime (cutoffTime now settings) then st
      else
        match IsBlacklisted db symbol with
        | Err _ => st
        | Ok true => st
        | Ok false =>
            match volumeData (store st) !! symbol with
            | None => st
            | Some volData =>
                if Before (VolumeData.Timestamp volData)
                     (cutoffTime now settings)
                then st
                else
                  match startPriceLookup history (cutoffTime now settings) with
                  | Err _ => st
                  | Ok startPrice =>
                      let priceChange :=
                        percentChange startPrice currentPrice in
                      if conditionsMet settings (VolumeData.Volume volData)
                           priceChange
                      then fireAlert bot now symbol priceChange
                             (VolumeData.Volume volData) st
                      else st
                  end
            end
        end
  end.

(** The [range] loop of [analyzeData], visiting the entries in [order]. *)
Definition analyzeRange (db : Database) (bot : Bot) (settings : Settings.t)
    (now : Time) (order : list (string * list PriceData.t)) (st : Pass)
    : Pass :=
  foldl
    (fun st '(symbol, history) =>
       analyzeSymbol db bot settings now symbol history st)
    st order.

(** [analyzeData], called at instant [now]. [order] is the order in which
    the [range] loop visits the entries of [priceHistory]; Go leaves it
    unspecified, and the properties below hold for every order. *)
Definition analyzeData (db : Database) (bot : Bot) (now : Time)
    (order : list (string * list PriceData.t)) (m : Monitor) : Pass :=
  match GetSettings db with
  | Err _ => {| store := m; sent := []; failed := [] |}
  | Ok settings =>
      analyzeRange db bot settings now order
        {| store := m; sent := []; failed := [] |}
  end.

(** [order] is a visiting order of the entries of [m.priceHistory]. *)
Definition rangeOrder (m : Monitor) (order : list (string * list PriceData.t))
    : Prop :=
  order ≡ₚ map_to_list (priceHistory m).

(** An alert for [symbol] was handed to the bot during the pass. *)
Definition fired (p : Pass) (symbol : string) : Prop :=
  exists alert, alert ∈ sent p /\ alertSymbol alert = symbol.

(** The analysis of [symbol] reaches the threshold check in store [m]:
    the history is not empty and its latest sample [current] is fresh, the
    symbol is not blacklisted, and it has an accumulator [volData] that is
    fresh. *)
Definition reachesCheck (db : Database) (settings : Settings.t) (now : Time)
    (symbol : string) (history : list PriceData.t) (m : Monitor)
    (current : PriceData.t) (volData : VolumeData.t) : Prop :=
  last history = Some current
  /\ cutoffTime now settings <= PriceData.Timestamp current
  /\ IsBlacklisted db symbol = Ok false
  /\ volumeData m !! symbol = Some volData
  /\ cutoffTime now settings <= VolumeData.Timestamp volData.

(** The analysis of [symbol] in store [m] hands [alert] to the bot. *)
Definition yields (db : Database) (settings : Settings.t) (now : Time)
    (symbol : string) (history : list PriceData.t) (m : Monitor)
    (alert : AlertEvent) : Prop :=
  exists current volData startPrice,
    reachesCheck db settings now symbol history m current volData
    /\ startPriceLookup history (cutoffTime now settings) = Ok startPrice
    /\ conditionsMet settings (VolumeData.Volume volData)
         (percentChange startPrice (PriceData.Price current)) = true
    /\ alert =
       Build_AlertEvent symbol
         (percentChange startPrice (PriceData.Price current))
         (VolumeData.Volume volData) now.

(** What the bot answers when handed [alert] again: the entry of the
    failure log if it is an error. *)
Definition failedDelivery (bot : Bot) (alert : AlertEvent)
    : option (string * string) :=
  match
    SendAlert bot (alertSymbol alert) (alertChange alert) (alertVolume alert)
      (alertAt alert)
  with
  | Some err => Some (alertSymbol alert, err)
  | None => None
  end.

(** ** The pruning pass: [cleanup] *)

(** The horizon of [cleanup]: [now.Add(-10 * time.Minute)]. *)
Definition retentionHorizon (now : Time) : Time :=
  Add now (-10 * Minute).

(** The inner loop over one history: the samples that are kept. *)
Definition pruneHistory (horizon : Time) (history : list PriceData.t)
    : list PriceData.t :=
  foldl
    (fun newHistory priceData =>
       if After (PriceData.Timestamp priceData) horizon
       then newHistory ++ [priceData]
       else newHistory)
    [] history.

(** [cleanup], called at instant [now]: both loops range over the map they
    update. *)
Definition cleanup (db : Database) (now : Time) (m : Monitor) : Monitor :=
  let horizon := retentionHorizon now in
  {| priceHistory :=
       map_fold
         (fun symbol history acc =>
            <[symbol := pruneHistory horizon history]> acc)
         (priceHistory m) (priceHistory m);
     volumeData :=
       map_fold
         (fun symbol volData acc =>
            if Before (VolumeData.Timestamp volData) horizon
            then delete symbol acc
            else acc)
         (volumeData m) (volumeData m) |}.

(** ** The stream client: [Connect], [reconnect] and [readMessages] *)

Module Client.

(** What the network and the shutdown signal answer: the [k]-th call of
    [websocket.DefaultDialer.Dial], the [k]-th call of [conn.ReadMessage],
    and whether [ctx.Done()] is ready at the [k]-th turn of the read loop. *)
Record Network : Type := {
  Dial : nat -> result nat;
  ReadMessage : nat -> result string;
  Done : nat -> bool }.

(** What the client does, in order. *)
Inductive Action : Type :=
| DialFailed
| DialSucceeded (handle : nat)
| ReaderStarted
| ReadFailed
| MessageHandled (message : string)
| ConnClosed
| Slept (d : Duration).

(** The client: its [conn] field ([None] is [nil]), the numbers of [Dial]
    calls, [ReadMessage] calls and loop turns so far, and the actions so
    far (oldest first). *)
Record t : Type := {
  conn : option nat;
  dials : nat;
  reads : nat;
  turns : nat;
  trace : list Action }.

Definition act (a : Action) (c : t) : t :=
  {| conn := conn c; dials := dials c; reads := reads c; turns := turns c;
     trace := trace c ++ [a] |}.

Definition setConn (h : option nat) (c : t) : t :=
  {| conn := h; dials := dials c; reads := reads c; turns := turns c;
     trace := trace c |}.

(** [Connect]: returns at once on a live connection; otherwise dials, and
    on success stores the connection and starts a reader ([go
    c.readMessages()]). *)
Definition Connect (net : Network) (c : t) : t * error :=
  match conn c with
  | Some _ => (c, None)
  | None =>
      let c1 :=
        {| conn := conn c; dials := S (dials c); reads := reads c;
           turns := turns c; trace := trace c |} in
      match Dial net (dials c) with
      | Err msg => (act DialFailed c1, Some msg)
      | Ok handle =>
          (act ReaderStarted
             (act (DialSucceeded handle) (setConn (Some handle) c1)),
           None)
      end
  end.

(** [reconnect]: close and forget the connection, sleep two seconds,
    [Connect]. *)
Definition reconnect (net : Network) (c : t) : t * error :=
  let c1 :=
    match conn c with
    | Some _ => setConn None (act ConnClosed c)
    | None => c
    end in
  Connect net (act (Slept (2 * Second)) c1).

(** One turn of the [for] loop of [readMessages]: [inl] when the function
    returns, [inr] when the loop goes round again. *)
Definition readTurn (net : Network) (c : t) : t + t :=
  let c0 :=
    {| conn := conn c; dials := dials c; reads := reads c;
       turns := S (turns c); trace := trace c |} in
  if Done net (turns c) then inl c0
  else
    match conn c0 with
    | None => inl c0
    | Some _ =>
        let c1 :=
          {| conn := conn c0; dials := dials c0; reads := S (reads c0);
             turns := turns c0; trace := trace c0 |} in
        match ReadMessage net (reads c0) with
        | Err _ =>
            match reconnect net (act ReadFailed c1) with
            | (c2, Some _) => inr (act (Slept (5 * Second)) c2)
            | (c2, None) => inr c2
            end
        | Ok message => inr (act (MessageHandled message) c1)
        end
    end.

(** [readMessages] run for at most [fuel] turns: [Some c] when it has
    returned in state [c], [None] when it is still looping. *)
Fixpoint readMessages (net : Network) (fuel : nat) (c : t) : option t :=
  match fuel with
  | O => None
  | S fuel' =>
      match readTurn net c with
      | inl c' => Some c'
      | inr c' => readMessages net fuel' c'
      end
  end.

(** The loop of [readMessages] after at most [n] turns: [inl] when it has
    returned, [inr] when it is still going round. *)
Fixpoint loop (net : Network) (n : nat) (c : t) : t + t :=
  match n with
  | O => inr c
  | S n' =>
      match readTurn net c with
      | inl c' => inl c'
      | inr c' => loop net n' c'
      end
  end.

(** [handleStreamData], over a world [World] the handlers act on. The
    decoders stand for [json.Unmarshal] into [[]TradeData] and
    [[]TickerData]. *)
Section Dispatch.

Variable World : Type.
Variable decodeTrades : string -> result (list TradeData.t).
Variable decodeTickers : string -> result (list TickerData.t).

(** [EventHandler]. *)
Definition EventHandler : Type := Event -> World -> World.

(** [c.handlers[key]]: a missing key reads as the empty slice. *)
Definition registered (handlers : gmap string (list EventHandler))
    (key : string) : list EventHandler :=
  default [] (handlers !! key).

(** [OnTrade] and [OnTicker]. *)
Definition OnTrade (handler : EventHandler)
    (handlers : gmap string (list EventHandler))
    : gmap string (list EventHandler) :=
  <["trade" := registered handlers "trade" ++ [handler]]> handlers.

Definition OnTicker (handler : EventHandler)
    (handlers : gmap string (list EventHandler))
    : gmap string (list EventHandler) :=
  <["ticker" := registered handlers "ticker" ++ [handler]]> handlers.

(** The nested loops [for _, event := range events { for _, handler :=
    range handlers { handler(event) } }]. *)
Definition dispatch (handlers : list EventHandler) (events : list Event)
    (w : World) : World :=
  foldl (fun w event => foldl (fun w handler => handler event w) w handlers)
    w events.

Definition handleStreamData (handlers : gmap string (list EventHandler))
    (stream data : string) (w : World) : World :=
  if (String.length data =? 0)%nat then w
  else if String.eqb stream "spot@public.deals.v3.api" then
    match decodeTrades data with
    | Err _ => w
    | Ok trades => dispatch (registered handlers "trade") (TradeEvent <$> trades) w
    end
  else if String.eqb stream "spot@public.ticker.v3.api" then
    match decodeTickers data with
    | Err _ => w
    | Ok tickers =>
        dispatch (registered handlers "ticker") (TickerEvent <$> tickers) w
    end
  else w.

End Dispatch.

End Client.

(** ** The bot: [SendAlert] and [getVolumeEmojis] *)

Module Telegram.

(** [strings.Repeat]: a negative count is a run-time panic, here [Err]. *)
Definition Repeat (s : string) (count : Z) : result string :=
  if count <? 0 then Err "strings: negative Repeat count"
  else Ok (foldr String.append "" (replicate (Z.to_nat count) s)).

(** [getVolumeEmojis]. *)
Definition getVolumeEmojis (volume : Z) : result string :=
  if volume <? 10000 then Ok ""
  else if volume <? 50000 then Ok "👁"
  else if volume <? 100000 then Ok "👁🔥"
  else if volume <? 150000 then Ok "👁🔥🔥"
  else if volume <? 200000 then Ok "👁🔥🔥🔥"
  else
    let fireCount := wrap64 (Z.quot (wrap64 (volume - 200000)) 50000 + 3) in
    let fireCount := if 10 <? fireCount then 10 else fireCount in
    fires ← Repeat "🔥" fireCount;
    Ok (String.append "👁" fires).

(** One [b.api.Send] of [SendAlert], as logged: the user, the text and the
    error. *)
Record Delivery : Type := {
  deliveredTo : Z;
  deliveredText : string;
  deliveryError : error }.

Section SendAlert.

(** [formatAlertMessage] and [b.api.Send]. *)
Variable formatAlertMessage : string -> float -> Z -> Time -> string.
Variable Send : Z -> string -> error.

(** [SendAlert], [users] being the order in which the [range] loop visits
    [b.allowedUsers]: the sends it makes and the error it returns. *)
Definition SendAlert (users : list Z) (symbol : string) (priceChange : float)
    (volume : Z) (timestamp : Time) : list Delivery * error :=
  let message := formatAlertMessage symbol priceChange volume timestamp in
  (foldl
     (fun log userID =>
        log ++ [Build_Delivery userID message (Send userID message)])
     [] users,
   None).


End SendAlert.

End Telegram.

(** ** Invariants of the store *)

(** Every accumulated volume is a value of [int]. *)
Definition volumesInRange (m : Monitor) : Prop :=
  forall symbol volData,
    volumeData m !! symbol = Some volData ->
    - 2 ^ 63 <= VolumeData.Volume volData < 2 ^ 63.

(** The samples of a history are in time order: no sample is stamped
    before one that precedes it. *)
Definition chronological (history : list PriceData.t) : Prop :=
  StronglySorted
    (fun earlier later =>
       PriceData.Timestamp earlier <= PriceData.Timestamp later)
    history.

(** Every history of the store is in time order. *)
Definition storeChronological (m : Monitor) : Prop :=
  forall symbol history,
    priceHistory m !! symbol = Some history -> chronological history.

(** ** Scenarios *)

(** A parser that knows the few decimal strings the scenarios use. *)
Definition parseDecimal (s : string) : result float :=
  if String.eqb s "100" then Ok 100%float
  else if String.eqb s "2" then Ok 2%float
  else if String.eqb s "0.5" then Ok 0.5%float
  else Err "invalid syntax".

(** The scenario of the specification: [BTCUSDT] went from 100 at 0 s to
    98 at 5 s, 5000 of volume arrived at 5 s, and the settings are a window
    of 5 s, a threshold of 2.0 percent and a minimum volume of 5000. *)
Definition dropHistory : list PriceData.t :=
  [PriceData.mk 100 0; PriceData.mk 98 (5 * Second)].

Definition dropStore : Monitor :=
  {| priceHistory := {["BTCUSDT" := dropHistory]};
     volumeData := {["BTCUSDT" := VolumeData.mk 5000 (5 * Second)]} |}.

Definition defaultSettings : Settings.t := Settings.mk 5 2.0 5000.

Definition openDatabase : Database :=
  {| GetSettings := Ok defaultSettings;
     IsBlacklisted := fun _ => Ok false;
     CleanupExpiredBlacklist := None |}.

(** The bot of the repository: [SendAlert] always returns [nil]. *)
Definition telegramBot : Bot :=
  {| SendAlert := fun _ _ _ _ => None |}.

(** A sink whose every delivery fails. *)
Definition brokenBot : Bot :=
  {| SendAlert := fun _ _ _ _ => Some "delivery failed" |}.

(** A symbol that already has 1000 of accumulated volume, and a snapshot
    whose recent trades are one trade of 2 units at 100. *)
Definition busyStore : Monitor :=
  {| priceHistory := ∅;
     volumeData := {["BTCUSDT" := VolumeData.mk 1000 0]} |}.

Definition recentTrade : TradeResponse.t :=
  TradeResponse.mk "BTCUSDT" "100" "2" 0 false.

Definition snapshotClient : RESTClient :=
  {| GetAllTickers := Ok [];
     GetRecentTrades := fun _ => Ok [recentTrade] |}.

Definition emptyStore : Monitor := {| priceHistory := ∅; volumeData := ∅ |}.

(** A history whose only sample sits exactly on the retention horizon of a
    pruning pass run at 10 minutes. *)
Definition boundarySample : PriceData.t := PriceData.mk 100 0.

Definition boundaryStore : Monitor :=
  {| priceHistory := {["BTCUSDT" := [boundarySample]]};
     volumeData := {["BTCUSDT" := VolumeData.mk 5000 0]} |}.

(** A network on which nothing works, and no shutdown. *)
Definition deadNetwork : Client.Network :=
  {| Client.Dial := fun _ => Err "connection refused";
     Client.ReadMessage := fun _ => Err "unexpected EOF";
     Client.Done := fun _ => false |}.

Definition connected : Client.t :=
  {| Client.conn := Some 0%nat; Client.dials := 1; Client.reads := 0;
     Client.turns := 0; Client.trace := [] |}.

(** A ticker and a trade of [BTCUSDT] at 100, as the stream delivers
    them. *)
Definition tickerUpdate : TickerData.t := TickerData.mk "BTCUSDT" "100" 0.

Definition tradeUpdate : TradeData.t :=
  TradeData.mk "BTCUSDT" "100" "2" 0 false.

(** The clock of the polling scenarios: the [k]-th reading is [k]. *)
Definition tickingClock (k : nat) : Time := Z.of_nat k.

(** A snapshot with one ticker of [BTCUSDT] at 100. *)
Definition tickerSnapshot : RESTClient :=
  {| GetAllTickers := Ok [TickerResponse.mk "BTCUSDT" "100"];
     GetRecentTrades := fun _ => Ok [recentTrade] |}.

(** A REST client whose every request fails. *)
Definition offlineClient : RESTClient :=
  {| GetAllTickers := Err "request failed";
     GetRecentTrades := fun _ => Err "request failed" |}.

(** Settings whose threshold is not a number, and a database that serves
    them. *)
Definition nanSettings : Settings.t := Settings.mk 5 nan 5000.

Definition nanDatabase : Database :=
  {| GetSettings := Ok nanSettings;
     IsBlacklisted := fun _ => Ok false;
     CleanupExpiredBlacklist := None |}.

(** A network on which every read fails and every dial succeeds, and one
    on which every read delivers a message. *)
Definition flakyNetwork : Client.Network :=
  {| Client.Dial := fun k => Ok k;
     Client.ReadMessage := fun _ => Err "unexpected EOF";
     Client.Done := fun _ => false |}.

Definition steadyNetwork : Client.Network :=
  {| Client.Dial := fun _ => Err "connection refused";
     Client.ReadMessage := fun k => if Nat.even k then Ok "ping" else Ok "pong";
     Client.Done := fun _ => false |}.

(** * Properties *)

(** ** Arithmetic of the embedding *)

Lemma wrap64_id (z : Z) : - 2 ^ 63 <= z < 2 ^ 63 -> wrap64 z = z.
Proof.
  intros Hz. unfold wrap64.
  rewrite Z.mod_small by lia. lia.
Qed.

Lemma wrap64_ge (z : Z) : z < 2 ^ 63 -> z <= wrap64 z.
Proof.
  intros Hz. unfold wrap64.
  destruct (Z_lt_le_dec (z + 2 ^ 63) 0) as [Hneg | Hpos].
  - pose proof (Z.mod_pos_bound (z + 2 ^ 63) (2 ^ 64)). lia.
  - rewrite Z.mod_small by lia. lia.
Qed.

(** Within the range of a window that does not overflow, the cutoff is
    [now] minus the window. *)
Lemma cutoffTime_window (now : Time) (settings : Settings.t) :
  0 <= Settings.TimeInterval settings <= 9223372036 ->
  cutoffTime now settings = now - Settings.TimeInterval settings * Second.
Proof.
  intros Hw. unfold cutoffTime, Add, Second.
  rewrite (wrap64_id (- _)) by lia.
  rewrite wrap64_id by lia. lia.
Qed.

(** For every non-negative window the cutoff is no earlier than [now]
    minus the window. *)
Lemma cutoffTime_lower (now : Time) (settings : Settings.t) :
  0 <= Settings.TimeInterval settings < 2 ^ 63 ->
  now - Settings.TimeInterval settings * Second <= cutoffTime now settings.
Proof.
  intros Hw. unfold cutoffTime, Add, Second.
  rewrite (wrap64_id (- _)) by lia.
  pose proof (wrap64_ge (- Settings.TimeInterval settings * 1000000000)).
  lia.
Qed.

(** ** Comparisons of binary64 values *)

Lemma SFleb_abs (t p : spec_float) :
  SFleb t (SFabs p) = SFleb t p || SFleb p (SFopp t).
Proof.
  unfold SFleb.
  destruct t as [st | st | | st mt et], p as [sp | sp | | sp mp ep];
    try destruct st; try destruct sp; simpl; try reflexivity.
  all: pose proof (Z.compare_antisym et ep) as Hz.
  all: pose proof (Pos.compare_cont_antisym mt mp Eq) as Hp; simpl in Hp.
  all: destruct (et ?= ep), (ep ?= et); try discriminate Hz; simpl;
    try reflexivity.
  all: destruct (Pos.compare_cont Eq mt mp), (Pos.compare_cont Eq mp mt);
    try discriminate Hp; reflexivity.
Qed.

(** [|p| >= t] is the disjunction the code tests. *)
Lemma leb_abs (t p : float) :
  (t <=? abs p)%float = ((t <=? p)%float || (p <=? - t)%float).
Proof. rewrite !leb_spec, abs_spec, opp_spec. apply SFleb_abs. Qed.

Lemma Prim2SF_zero : Prim2SF 0 = S754_zero false.
Proof. reflexivity. Qed.

Lemma ltb_zero_neq (s : float) :
  (0 <? s)%float = true -> (s =? 0)%float = false.
Proof.
  rewrite ltb_spec, eqb_spec, Prim2SF_zero. unfold SFltb, SFeqb.
  destruct (Prim2SF s) as [[] | [] | | [] m e]; simpl; congruence.
Qed.

Lemma leb_zero_not_ltb (s : float) :
  (s <=? 0)%float = true -> (0 <? s)%float = false.
Proof.
  rewrite ltb_spec, leb_spec, Prim2SF_zero. unfold SFltb, SFleb.
  destruct (Prim2SF s) as [[] | [] | | [] m e]; simpl; congruence.
Qed.

(** ** The start-price lookup *)

Lemma index_lt {A : Type} (s : list A) (i : nat) :
  (i < length s)%nat -> exists x, s !! i = Some x /\ index s i = Ok x.
Proof.
  intros Hi. destruct (lookup_lt_is_Some_2 s i Hi) as [x Hx].
  exists x. unfold index. rewrite Hx. auto.
Qed.

(** The scan stays inside the slice and stops at the last index below [n]
    whose sample is at or before the target. *)
Lemma scanBackward_spec (history : list PriceData.t) (targetTime : Time)
    (n : nat) :
  (n <= length history)%nat ->
  (exists i sample,
      (i < n)%nat /\ history !! i = Some sample
      /\ PriceData.Timestamp sample <= targetTime
      /\ (forall j later, (i < j < n)%nat -> history !! j = Some later ->
            targetTime < PriceData.Timestamp later)
      /\ scanBackward history targetTime n
         = Ok (Some (PriceData.Price sample)))
  \/ ((forall j later, (j < n)%nat -> history !! j = Some later ->
         targetTime < PriceData.Timestamp later)
      /\ scanBackward history targetTime n = Ok None).
Proof.
  induction n as [| i IH]; intros Hn.
  - right. split; [intros j later Hj; lia | reflexivity].
  - destruct (index_lt history i ltac:(lia)) as [sample [Hs Hidx]].
    cbn [scanBackward]. rewrite Hidx. cbn.
    unfold Before, Equal.
    destruct (Z.ltb_spec (PriceData.Timestamp sample) targetTime) as [Hlt | Hge];
      [| destruct (Z.eqb_spec (PriceData.Timestamp sample) targetTime)
           as [Heq | Hne]]; cbn.
    + left. exists i, sample. repeat split; try lia; assumption.
    + left. exists i, sample. repeat split; try lia; assumption.
    + specialize (IH ltac:(lia)).
      destruct IH as [[k [found [Hk [Hf [Hle [Hlater Hscan]]]]]] | [Hnone Hscan]].
      * left. exists k, found. repeat split; try lia; try assumption.
        intros j later Hj Hl.
        destruct (decide (j = i)) as [-> | Hji].
        -- rewrite Hs in Hl. injection Hl as <-. lia.
        -- apply (Hlater j later); [lia | assumption].
      * right. split; [| assumption].
        intros j later Hj Hl.
        destruct (decide (j = i)) as [-> | Hji].
        -- rewrite Hs in Hl. injection Hl as <-. lia.
        -- apply (Hnone j later); [lia | assumption].
Qed.

(** The lookup never fails, whatever the history. *)
Lemma startPriceLookup_total (history : list PriceData.t) (targetTime : Time) :
  exists startPrice, startPriceLookup history targetTime = Ok startPrice.
Proof.
  unfold startPriceLookup.
  destruct (scanBackward_spec history targetTime (length history) ltac:(lia))
    as [[i [sample [_ [_ [_ [_ Hscan]]]]]] | [_ Hscan]];
    rewrite Hscan; cbn.
  - eauto.
  - destruct history as [| oldest rest]; cbn; eauto.
Qed.

(** C4. For every non-empty price series and target time the start-price
    lookup returns a price and raises no error; the price is that of the
    most recent sample whose timestamp is at or before the target time
    (the first one met when scanning backward from the end), or, when no
    sample qualifies, that of the oldest retained sample; in both cases it
    is the price of a sample of the series itself. *)
Theorem startPriceLookup_backward_scan (history : list PriceData.t)
    (targetTime : Time) :
  history <> [] ->
  exists startPrice,
    startPriceLookup history targetTime = Ok startPrice
    /\ ((exists i sample,
            history !! i = Some sample
            /\ PriceData.Timestamp sample <= targetTime
            /\ (forall j later, (i < j)%nat -> history !! j = Some later ->
                  targetTime < PriceData.Timestamp later)
            /\ startPrice = PriceData.Price sample)
        \/ ((forall sample, sample ∈ history ->
               targetTime < PriceData.Timestamp sample)
            /\ exists oldest,
                 head history = Some oldest
                 /\ startPrice = PriceData.Price oldest))
    /\ exists sample, sample ∈ history /\ startPrice = PriceData.Price sample.
Proof.
  intros Hne. unfold startPriceLookup.
  destruct (scanBackward_spec history targetTime (length history) ltac:(lia))
    as [[i [sample [Hi [Hs [Hle [Hlater Hscan]]]]]] | [Hnone Hscan]];
    rewrite Hscan; cbn.
  - exists (PriceData.Price sample). split; [reflexivity |]. split.
    + left. exists i, sample. repeat split; try assumption.
      intros j later Hj Hl. apply (Hlater j later); [| assumption].
      split; [assumption |]. apply (lookup_lt_Some history j later Hl).
    + exists sample. split; [| reflexivity].
      apply (list_elem_of_lookup_2 history i sample Hs).
  - destruct history as [| oldest rest]; [congruence |]. cbn.
    exists (PriceData.Price oldest). split; [reflexivity |]. split.
    + right. split.
      * intros sample Hin.
        apply list_elem_of_lookup_1 in Hin as [j Hj].
        apply (Hnone j sample); [| assumption].
        apply (lookup_lt_Some _ j sample Hj).
      * exists oldest. split; reflexivity.
    + exists oldest. split; [apply list_elem_of_here | reflexivity].
Qed.

Lemma startPriceLookup_backward_scan_witness :
  dropHistory <> []
  /\ exists startPrice,
       startPriceLookup dropHistory 0 = Ok startPrice
       /\ exists sample,
            sample ∈ dropHistory /\ startPrice = PriceData.Price sample.
Proof.
  split; [discriminate |].
  destruct (startPriceLookup_backward_scan dropHistory 0)
    as [startPrice [Hlookup [_ Hown]]]; [discriminate |].
  exists startPrice. split; assumption.
Defined.

(** ** The percent change *)

(** C5. The percent change is [(currentPrice - startPrice) / startPrice *
    100] when [startPrice > 0] and [0] when [startPrice <= 0]; the division
    is evaluated only with a divisor that is not zero, and the function is
    total. *)
Theorem percentChange_guarded (startPrice currentPrice : float) :
  ((0 <? startPrice)%float = true ->
     percentChange startPrice currentPrice
     = ((currentPrice - startPrice) / startPrice * 100)%float
     /\ (startPrice =? 0)%float = false)
  /\ ((startPrice <=? 0)%float = true ->
        percentChange startPrice currentPrice = 0%float).
Proof.
  unfold percentChange. split.
  - intros Hpos. rewrite Hpos. split; [reflexivity |].
    apply ltb_zero_neq, Hpos.
  - intros Hle. rewrite (leb_zero_not_ltb startPrice Hle). reflexivity.
Qed.

Lemma percentChange_guarded_witness :
  ((0 <? 100)%float = true /\ (0 <=? 0)%float = true)
  /\ percentChange 100 98 = (-2)%float
  /\ (100 =? 0)%float = false
  /\ percentChange 0 98 = 0%float.
Proof.
  split; [split; reflexivity |].
  destruct (percentChange_guarded 100 98) as [Hpos _].
  destruct (percentChange_guarded 0 98) as [_ Hzero].
  destruct (Hpos eq_refl) as [Hvalue Hdiv].
  split; [rewrite Hvalue; reflexivity |].
  split; [exact Hdiv | exact (Hzero eq_refl)].
Defined.

(** ** One iteration of the analysis loop *)

Section AnalysisStep.

Variables (db : Database) (bot : Bot) (settings : Settings.t) (now : Time).

Lemma yields_symbol symbol history m alert :
  yields db settings now symbol history m alert -> alertSymbol alert = symbol.
Proof. intros (current & volData & sp & _ & _ & _ & ->). reflexivity. Qed.

Lemma yields_functional symbol history m alert alert' :
  yields db settings now symbol history m alert ->
  yields db settings now symbol history m alert' ->
  alert = alert'.
Proof.
  intros (c & v & sp & (Hl & _ & _ & Hv & _) & Hsp & _ & ->)
         (c' & v' & sp' & (Hl' & _ & _ & Hv' & _) & Hsp' & _ & ->).
  congruence.
Qed.

Lemma yields_ext symbol history m m' alert :
  volumeData m !! symbol = volumeData m' !! symbol ->
  yields db settings now symbol history m alert ->
  yields db settings now symbol history m' alert.
Proof.
  intros Heq (c & v & sp & (Hl & Hc & Hb & Hv & Hvt) & Hrest).
  exists c, v, sp. split; [| exact Hrest].
  repeat split; try assumption. rewrite <- Heq. exact Hv.
Qed.

(** An iteration either fires the alert the entry yields, or, when the
    entry yields none, leaves the state as it was. *)
Lemma analyzeSymbol_cases symbol history st :
  (exists alert,
      yields db settings now symbol history (store st) alert
      /\ analyzeSymbol db bot settings now symbol history st
         = fireAlert bot now symbol (alertChange alert) (alertVolume alert) st)
  \/ ((forall alert, ~ yields db settings now symbol history (store st) alert)
      /\ analyzeSymbol db bot settings now symbol history st = st).
Proof.
  unfold analyzeSymbol.
  destruct (last history) as [current |] eqn:Hlast.
  2: { right. split; [| reflexivity].
       intros alert (c & v & sp & (Hl & _) & _). congruence. }
  unfold Before.
  destruct (Z.ltb_spec (PriceData.Timestamp current) (cutoffTime now settings))
    as [Hstale | Hfresh].
  { right. split; [| reflexivity].
    intros alert (c & v & sp & (Hl & Hc & _) & _).
    assert (c = current) as -> by congruence. lia. }
  destruct (IsBlacklisted db symbol) as [[|] | msg] eqn:Hblack.
  1, 3: right; split; [| reflexivity];
    intros alert (c & v & sp & (_ & _ & Hb & _) & _); congruence.
  destruct (volumeData (store st) !! symbol) as [volData |] eqn:Hvol.
  2: { right. split; [| reflexivity].
       intros alert (c & v & sp & (_ & _ & _ & Hv & _) & _). congruence. }
  destruct (Z.ltb_spec (VolumeData.Timestamp volData) (cutoffTime now settings))
    as [Hvstale | Hvfresh].
  { right. split; [| reflexivity].
    intros alert (c & v & sp & (_ & _ & _ & Hv & Hvt) & _).
    assert (v = volData) as -> by congruence. lia. }
  destruct (startPriceLookup_total history (cutoffTime now settings))
    as [startPrice Hsp].
  rewrite Hsp.
  destruct (conditionsMet settings (VolumeData.Volume volData)
              (percentChange startPrice (PriceData.Price current))) eqn:Hmet.
  - left.
    exists (Build_AlertEvent symbol
              (percentChange startPrice (PriceData.Price current))
              (VolumeData.Volume volData) now).
    split; [| reflexivity].
    exists current, volData, startPrice.
    repeat split; assumption.
  - right. split; [| reflexivity].
    intros alert (c & v & sp & (Hl & _ & _ & Hv & _) & Hsp' & Hmet' & _).
    assert (c = current) as -> by congruence.
    assert (v = volData) as -> by congruence.
    assert (sp = startPrice) as -> by congruence.
    congruence.
Qed.

(** An iteration on [symbol] leaves the accumulator and the alerts of
    every other symbol alone, never touches a price history, and keeps the
    alerts already sent. *)
Lemma analyzeSymbol_frame symbol history st :
  let st' := analyzeSymbol db bot settings now symbol history st in
  priceHistory (store st') = priceHistory (store st)
  /\ (forall other, other <> symbol ->
        volumeData (store st') !! other = volumeData (store st) !! other)
  /\ (forall alert, alert ∈ sent st -> alert ∈ sent st')
  /\ (forall alert, alert ∈ sent st' ->
        alert ∈ sent st \/ alertSymbol alert = symbol).
Proof.
  intros st'. subst st'.
  destruct (analyzeSymbol_cases symbol history st)
    as [(alert & Hy & ->) | (_ & ->)]; [| tauto].
  unfold fireAlert; cbn. repeat split.
  - intros other Hne. apply lookup_delete_ne. congruence.
  - intros a Ha. apply elem_of_app. left. exact Ha.
  - intros a [Ha | Ha%list_elem_of_singleton]%elem_of_app;
      [left; exact Ha | right; subst a; reflexivity].
Qed.

End AnalysisStep.

(** ** The analysis loop *)

Section AnalysisRange.

Variables (db : Database) (bot : Bot) (settings : Settings.t) (now : Time).

Lemma analyzeRange_cons symbol history order st :
  analyzeRange db bot settings now ((symbol, history) :: order) st
  = analyzeRange db bot settings now order
      (analyzeSymbol db bot settings now symbol history st).
Proof. reflexivity. Qed.

Lemma analyzeRange_app order1 order2 st :
  analyzeRange db bot settings now (order1 ++ order2) st
  = analyzeRange db bot settings now order2
      (analyzeRange db bot settings now order1 st).
Proof. unfold analyzeRange. apply foldl_app. Qed.

(** What the loop leaves alone: the price histories, the accumulators of
    the symbols it does not visit, and the alerts sent before; and every
    new alert is for a visited symbol. *)
Lemma analyzeRange_frame order st :
  let p := analyzeRange db bot settings now order st in
  priceHistory (store p) = priceHistory (store st)
  /\ (forall other, other ∉ order.*1 ->
        volumeData (store p) !! other = volumeData (store st) !! other)
  /\ (forall alert, alert ∈ sent st -> alert ∈ sent p)
  /\ (forall alert, alert ∈ sent p ->
        alert ∈ sent st \/ alertSymbol alert ∈ order.*1).
Proof.
  revert st. induction order as [| [symbol history] order IH]; intros st p.
  - subst p. cbn. repeat split; auto.
  - subst p. rewrite analyzeRange_cons.
    destruct (analyzeSymbol_frame db bot settings now symbol history st)
      as (Hph & Hvol & Hkeep & Hnew).
    destruct (IH (analyzeSymbol db bot settings now symbol history st))
      as (Hph' & Hvol' & Hkeep' & Hnew').
    cbn [fmap list_fmap fst]. repeat split.
    + congruence.
    + intros other Hother. apply not_elem_of_cons in Hother as [Hne Hnot].
      rewrite Hvol' by exact Hnot. apply Hvol. exact Hne.
    + auto.
    + intros alert Ha. rewrite elem_of_cons.
      destruct (Hnew' alert Ha) as [Hin | Hin]; [| tauto].
      destruct (Hnew alert Hin); tauto.
Qed.

(** What the loop does for a symbol it visits, when no symbol is visited
    twice: its alerts are those sent before and the one its entry yields,
    and its accumulator is deleted exactly when the entry yields an
    alert. *)
Lemma analyzeRange_entry order st symbol history :
  NoDup order.*1 -> (symbol, history) ∈ order ->
  let p := analyzeRange db bot settings now order st in
  (forall alert, alertSymbol alert = symbol ->
     (alert ∈ sent p <->
      alert ∈ sent st
      \/ yields db settings now symbol history (store st) alert))
  /\ ((exists alert, yields db settings now symbol history (store st) alert) ->
        volumeData (store p) !! symbol = None)
  /\ ((forall alert,
         ~ yields db settings now symbol history (store st) alert) ->
        volumeData (store p) !! symbol = volumeData (store st) !! symbol).
Proof.
  intros Hnodup Hin p. subst p.
  apply list_elem_of_split in Hin as (order1 & order2 & ->).
  rewrite fmap_app, fmap_cons in Hnodup. cbn [fst] in Hnodup.
  apply NoDup_app in Hnodup as (_ & Hdisj & Hnodup2).
  apply NoDup_cons in Hnodup2 as (Hnot2 & _).
  assert (Hnot1 : symbol ∉ order1.*1).
  { intros Hin1. apply (Hdisj symbol Hin1). apply list_elem_of_here. }
  rewrite analyzeRange_app, analyzeRange_cons.
  set (st1 := analyzeRange db bot settings now order1 st).
  set (st2 := analyzeSymbol db bot settings now symbol history st1).
  destruct (analyzeRange_frame order1 st) as (_ & Hvol1 & Hkeep1 & Hnew1).
  fold st1 in Hvol1, Hkeep1, Hnew1.
  destruct (analyzeRange_frame order2 st2) as (_ & Hvol2 & Hkeep2 & Hnew2).
  specialize (Hvol1 symbol Hnot1). specialize (Hvol2 symbol Hnot2).
  assert (Hy1 : forall alert,
             yields db settings now symbol history (store st1) alert
             <-> yields db settings now symbol history (store st) alert).
  { intros alert. split; apply yields_ext; congruence. }
  destruct (analyzeSymbol_cases db bot settings now symbol history st1)
    as [(fire & Hfire & Hst2) | (Hnone & Hst2)]; fold st2 in Hst2.
  - assert (Hsent2 : sent st2 = sent st1 ++ [fire]).
    { pose proof Hfire as (c & v & sp & _ & _ & _ & Hfeq).
      rewrite Hst2, Hfeq. reflexivity. }
    assert (Hdel : volumeData (store st2) !! symbol = None).
    { rewrite Hst2. cbn. apply lookup_delete_eq. }
    split; [| split].
    + intros alert Hsym. split.
      * intros Ha. destruct (Hnew2 alert Ha) as [Hin2 | Hin2].
        2: { exfalso. apply Hnot2. congruence. }
        rewrite Hsent2 in Hin2.
        apply elem_of_app in Hin2 as [Hin1 | ->%list_elem_of_singleton].
        -- destruct (Hnew1 alert Hin1) as [? | Hin1']; [tauto |].
           exfalso. apply Hnot1. congruence.
        -- right. apply Hy1. exact Hfire.
      * intros [Ha | Ha]; apply Hkeep2.
        -- rewrite Hsent2. apply elem_of_app. left. auto.
        -- rewrite Hsent2. apply elem_of_app. right.
           apply list_elem_of_singleton.
           apply Hy1 in Ha. exact (yields_functional _ _ _ _ _ _ _ _ Ha Hfire).
    + intros _. congruence.
    + intros Hno. exfalso. apply (Hno fire). apply Hy1. exact Hfire.
  - rewrite Hst2 in *. split; [| split].
    + intros alert Hsym. split.
      * intros Ha. destruct (Hnew2 alert Ha) as [Hin2 | Hin2].
        2: { exfalso. apply Hnot2. congruence. }
        destruct (Hnew1 alert Hin2) as [? | Hin1']; [tauto |].
        exfalso. apply Hnot1. congruence.
      * intros [Ha | Ha]; [auto |].
        exfalso. apply (Hnone alert). apply Hy1. exact Ha.
    + intros [alert Ha]. exfalso. apply (Hnone alert). apply Hy1. exact Ha.
    + intros _. congruence.
Qed.

End AnalysisRange.

(** ** The analysis pass as a whole *)

Lemma rangeOrder_NoDup m order : rangeOrder m order -> NoDup order.*1.
Proof.
  intros Horder. unfold rangeOrder in Horder.
  rewrite Horder. apply NoDup_fst_map_to_list.
Qed.

Lemma rangeOrder_elem m order symbol history :
  rangeOrder m order ->
  (symbol, history) ∈ order <-> priceHistory m !! symbol = Some history.
Proof.
  intros Horder. unfold rangeOrder in Horder.
  rewrite Horder. apply elem_of_map_to_list.
Qed.

Lemma rangeOrder_key m order symbol :
  rangeOrder m order ->
  symbol ∈ order.*1 -> exists history, priceHistory m !! symbol = Some history.
Proof.
  intros Horder Hin.
  apply list_elem_of_fmap in Hin as ([s history] & -> & Hin).
  exists history. apply (rangeOrder_elem m order s history Horder), Hin.
Qed.

Section AnalysisPass.

Variables (db : Database) (bot : Bot) (now : Time).
Variables (order : list (string * list PriceData.t)) (m : Monitor).
Hypothesis Horder : rangeOrder m order.

(** The alerts of a pass are the ones the entries of the store yield. *)
Lemma analyzeData_sent alert :
  alert ∈ sent (analyzeData db bot now order m)
  <-> exists settings history,
        GetSettings db = Ok settings
        /\ priceHistory m !! alertSymbol alert = Some history
        /\ yields db settings now (alertSymbol alert) history m alert.
Proof.
  unfold analyzeData.
  destruct (GetSettings db) as [settings | msg] eqn:Hsettings; cbn.
  2: { split; [intros Hin; inversion Hin |].
       intros (s & h & Hs & _). discriminate Hs. }
  set (st := {| store := m; sent := []; failed := [] |}).
  split.
  - intros Hin.
    destruct (analyzeRange_frame db bot settings now order st)
      as (_ & _ & _ & Hnew).
    destruct (Hnew alert Hin) as [Hnil | Hkey]; [inversion Hnil |].
    destruct (rangeOrder_key m order _ Horder Hkey) as [history Hhist].
    exists settings, history. split; [reflexivity |]. split; [exact Hhist |].
    apply (rangeOrder_elem m order _ history Horder) in Hhist.
    destruct (analyzeRange_entry db bot settings now order st _ history
                (rangeOrder_NoDup m order Horder) Hhist) as (Hiff & _).
    apply (Hiff alert eq_refl) in Hin as [Hnil | Hy]; [inversion Hnil | exact Hy].
  - intros (s & history & Hs & Hhist & Hy).
    injection Hs as <-.
    apply (rangeOrder_elem m order _ history Horder) in Hhist.
    destruct (analyzeRange_entry db bot settings now order st _ history
                (rangeOrder_NoDup m order Horder) Hhist) as (Hiff & _).
    apply (Hiff alert eq_refl). right. exact Hy.
Qed.

(** A symbol fires exactly when its entry yields an alert. *)
Lemma analyzeData_fired symbol :
  fired (analyzeData db bot now order m) symbol
  <-> exists settings history alert,
        GetSettings db = Ok settings
        /\ priceHistory m !! symbol = Some history
        /\ yields db settings now symbol history m alert.
Proof.
  unfold fired. split.
  - intros (alert & Hin & <-).
    apply analyzeData_sent in Hin as (settings & history & Hin).
    exists settings, history, alert. exact Hin.
  - intros (settings & history & alert & Hs & Hhist & Hy).
    exists alert.
    pose proof (yields_symbol _ _ _ _ _ _ _ Hy) as Hsym.
    split; [| exact Hsym].
    apply analyzeData_sent. exists settings, history.
    rewrite Hsym. auto.
Qed.

(** A pass never changes a price history. *)
Lemma analyzeData_priceHistory :
  priceHistory (store (analyzeData db bot now order m)) = priceHistory m.
Proof.
  unfold analyzeData. destruct (GetSettings db) as [settings | msg]; cbn.
  - apply (analyzeRange_frame db bot settings now order
             {| store := m; sent := []; failed := [] |}).
  - reflexivity.
Qed.

(** A pass deletes the accumulators of the symbols that fired and leaves
    every other accumulator as it was. *)
Lemma analyzeData_volumeData symbol :
  (fired (analyzeData db bot now order m) symbol ->
     volumeData (store (analyzeData db bot now order m)) !! symbol = None)
  /\ (~ fired (analyzeData db bot now order m) symbol ->
        volumeData (store (analyzeData db bot now order m)) !! symbol
        = volumeData m !! symbol).
Proof.
  pose proof (analyzeData_fired symbol) as Hfired.
  revert Hfired. unfold analyzeData.
  destruct (GetSettings db) as [settings | msg] eqn:Hsettings; cbn.
  2: { intros Hfired. split; [| reflexivity].
       intros (s & h & a & Hs & _)%Hfired. discriminate Hs. }
  set (st := {| store := m; sent := []; failed := [] |}).
  intros Hfired.
  destruct (decide (symbol ∈ order.*1)) as [Hkey | Hnokey].
  - destruct (rangeOrder_key m order _ Horder Hkey) as [history Hhist].
    pose proof Hhist as Hentry.
    apply (rangeOrder_elem m order _ history Horder) in Hentry.
    destruct (analyzeRange_entry db bot settings now order st _ history
                (rangeOrder_NoDup m order Horder) Hentry) as (_ & Hdel & Hkeep).
    split.
    + intros (s & h & a & Hs & Hh & Hy)%Hfired.
      apply Hdel. exists a.
      assert (s = settings) as -> by congruence.
      assert (h = history) as -> by congruence.
      exact Hy.
    + intros Hnot. apply Hkeep. intros a Hy. apply Hnot, Hfired.
      exists settings, history, a. auto.
  - destruct (analyzeRange_frame db bot settings now order st)
      as (_ & Hvol & _).
    split; [intros Hf | intros _; exact (Hvol symbol Hnokey)].
    exfalso. apply Hfired in Hf as (s & h & a & _ & Hh & _).
    apply Hnokey. apply list_elem_of_fmap. exists (symbol, h).
    split; [reflexivity |]. apply (rangeOrder_elem m order _ h Horder), Hh.
Qed.

End AnalysisPass.

(** The store and the alerts of an iteration do not depend on what the bot
    answers. *)
Lemma analyzeSymbol_bot db bot bot' settings now symbol history st st' :
  store st = store st' -> sent st = sent st' ->
  store (analyzeSymbol db bot settings now symbol history st)
  = store (analyzeSymbol db bot' settings now symbol history st')
  /\ sent (analyzeSymbol db bot settings now symbol history st)
     = sent (analyzeSymbol db bot' settings now symbol history st').
Proof.
  intros Hstore Hsent. unfold analyzeSymbol. rewrite <- Hstore.
  destruct (last history); [| auto].
  destruct (Before _ _); [auto |].
  destruct (IsBlacklisted db symbol) as [[|] | msg]; [auto | | auto].
  destruct (volumeData (store st) !! symbol); [| auto].
  destruct (Before _ _); [auto |].
  destruct (startPriceLookup _ _); [| auto].
  destruct (conditionsMet _ _ _); [| auto].
  unfold fireAlert; cbn. rewrite <- Hstore, <- Hsent. auto.
Qed.

Lemma analyzeRange_bot db bot bot' settings now order st st' :
  store st = store st' -> sent st = sent st' ->
  store (analyzeRange db bot settings now order st)
  = store (analyzeRange db bot' settings now order st')
  /\ sent (analyzeRange db bot settings now order st)
     = sent (analyzeRange db bot' settings now order st').
Proof.
  revert st st'. induction order as [| [symbol history] order IH];
    intros st st' Hstore Hsent.
  - cbn. auto.
  - rewrite !analyzeRange_cons.
    destruct (analyzeSymbol_bot db bot bot' settings now symbol history st st'
                Hstore Hsent) as [Hstore1 Hsent1].
    apply IH; assumption.
Qed.

Lemma analyzeData_bot db bot bot' now order m :
  store (analyzeData db bot now order m)
  = store (analyzeData db bot' now order m)
  /\ sent (analyzeData db bot now order m)
     = sent (analyzeData db bot' now order m).
Proof.
  unfold analyzeData. destruct (GetSettings db); [| auto].
  apply analyzeRange_bot; reflexivity.
Qed.

(** The scenario fires, whatever the bot. *)
Lemma dropStore_order :
  rangeOrder dropStore (map_to_list (priceHistory dropStore)).
Proof. unfold rangeOrder. reflexivity. Qed.

Lemma dropStore_fired bot :
  fired
    (analyzeData openDatabase bot (5 * Second)
       (map_to_list (priceHistory dropStore)) dropStore)
    "BTCUSDT".
Proof.
  exists (Build_AlertEvent "BTCUSDT" (-2)%float 5000 (5 * Second)).
  split; [| reflexivity].
  destruct (analyzeData_bot openDatabase bot telegramBot (5 * Second)
              (map_to_list (priceHistory dropStore)) dropStore) as [_ ->].
  vm_compute. apply list_elem_of_here.
Qed.

(** ** Properties of the analysis pass *)

(** C1. In a pass, a symbol that reaches the threshold check (non-empty
    history with a fresh latest sample, not blacklisted, fresh accumulator)
    fires an alert if and only if its accumulated volume is at least
    [MinVolume] and the absolute value of its percent change is at least
    [PriceChange]; both comparisons are inclusive, and a negative move
    qualifies as a positive one does. *)
Theorem alert_iff_thresholds (db : Database) (bot : Bot) (now : Time)
    (order : list (string * list PriceData.t)) (m : Monitor)
    (settings : Settings.t) (symbol : string) (history : list PriceData.t)
    (current : PriceData.t) (volData : VolumeData.t) :
  rangeOrder m order ->
  GetSettings db = Ok settings ->
  priceHistory m !! symbol = Some history ->
  reachesCheck db settings now symbol history m current volData ->
  exists startPrice,
    startPriceLookup history (cutoffTime now settings) = Ok startPrice
    /\ (fired (analyzeData db bot now order m) symbol
        <-> Settings.MinVolume settings <= VolumeData.Volume volData
            /\ (Settings.PriceChange settings
                <=? abs (percentChange startPrice (PriceData.Price current)))%float
               = true).
Proof.
  intros Horder Hsettings Hhist Hreach.
  destruct (startPriceLookup_total history (cutoffTime now settings))
    as [startPrice Hsp].
  exists startPrice. split; [exact Hsp |].
  rewrite (analyzeData_fired db bot now order m Horder symbol).
  rewrite leb_abs.
  pose proof Hreach as (Hlast & _ & _ & Hvol & _).
  split.
  - intros (s & h & alert & Hs & Hh & (c & v & sp & (Hl & _ & _ & Hv & _)
                                        & Hsp' & Hmet & _)).
    assert (s = settings) as -> by congruence.
    assert (h = history) as -> by congruence.
    assert (c = current) as -> by congruence.
    assert (v = volData) as -> by congruence.
    assert (sp = startPrice) as -> by congruence.
    unfold conditionsMet in Hmet.
    apply andb_true_iff in Hmet as [Hmin Hmove].
    split; [apply Z.leb_le, Hmin | exact Hmove].
  - intros [Hmin Hmove].
    exists settings, history,
      (Build_AlertEvent symbol
         (percentChange startPrice (PriceData.Price current))
         (VolumeData.Volume volData) now).
    split; [exact Hsettings |]. split; [exact Hhist |].
    exists current, volData, startPrice.
    split; [exact Hreach |]. split; [exact Hsp |]. split; [| reflexivity].
    unfold conditionsMet. apply andb_true_iff.
    split; [apply Z.leb_le, Hmin | exact Hmove].
Qed.

Lemma dropStore_reachesCheck :
  reachesCheck openDatabase defaultSettings (5 * Second) "BTCUSDT" dropHistory
    dropStore (PriceData.mk 98 (5 * Second)) (VolumeData.mk 5000 (5 * Second)).
Proof.
  unfold reachesCheck. repeat split; try reflexivity;
    vm_compute; discriminate.
Defined.

Lemma alert_iff_thresholds_witness :
  fired
    (analyzeData openDatabase telegramBot (5 * Second)
       (map_to_list (priceHistory dropStore)) dropStore)
    "BTCUSDT".
Proof.
  destruct (alert_iff_thresholds openDatabase telegramBot (5 * Second)
              (map_to_list (priceHistory dropStore)) dropStore defaultSettings
              "BTCUSDT" dropHistory (PriceData.mk 98 (5 * Second))
              (VolumeData.mk 5000 (5 * Second)))
    as [startPrice [Hsp Hiff]].
  - unfold rangeOrder. reflexivity.
  - reflexivity.
  - reflexivity.
  - exact dropStore_reachesCheck.
  - vm_compute in Hsp. injection Hsp as <-.
    apply Hiff. split; [vm_compute; discriminate | vm_compute; reflexivity].
Defined.

(** C3. A symbol fires in a pass only if it has at least one price sample,
    its latest sample is not older than the cutoff, it is not blacklisted,
    and it has an accumulator that is not older than the cutoff; for a
    non-negative window the cutoff is at or after [now] minus the window.
    So a symbol without recorded volume in the window, or a blacklisted
    one, never fires. *)
Theorem alert_only_if_fresh_and_unsuppressed (db : Database) (bot : Bot)
    (now : Time) (order : list (string * list PriceData.t)) (m : Monitor)
    (symbol : string) :
  rangeOrder m order ->
  fired (analyzeData db bot now order m) symbol ->
  exists settings history current volData,
    GetSettings db = Ok settings
    /\ priceHistory m !! symbol = Some history
    /\ last history = Some current
    /\ cutoffTime now settings <= PriceData.Timestamp current
    /\ IsBlacklisted db symbol = Ok false
    /\ volumeData m !! symbol = Some volData
    /\ cutoffTime now settings <= VolumeData.Timestamp volData
    /\ (0 <= Settings.TimeInterval settings < 2 ^ 63 ->
          now - Settings.TimeInterval settings * Second
            <= PriceData.Timestamp current
          /\ now - Settings.TimeInterval settings * Second
               <= VolumeData.Timestamp volData).
Proof.
  intros Horder Hfired.
  apply (analyzeData_fired db bot now order m Horder) in Hfired
    as (settings & history & alert & Hs & Hh
        & (c & v & sp & (Hl & Hc & Hb & Hv & Hvt) & _)).
  exists settings, history, c, v.
  repeat split; try assumption;
    intros; pose proof (cutoffTime_lower now settings ltac:(assumption)); lia.
Qed.

Lemma alert_only_if_fresh_and_unsuppressed_witness :
  exists settings history current volData,
    GetSettings openDatabase = Ok settings
    /\ priceHistory dropStore !! "BTCUSDT" = Some history
    /\ last history = Some current
    /\ cutoffTime (5 * Second) settings <= PriceData.Timestamp current
    /\ IsBlacklisted openDatabase "BTCUSDT" = Ok false
    /\ volumeData dropStore !! "BTCUSDT" = Some volData
    /\ cutoffTime (5 * Second) settings <= VolumeData.Timestamp volData
    /\ (0 <= Settings.TimeInterval settings < 2 ^ 63 ->
          5 * Second - Settings.TimeInterval settings * Second
            <= PriceData.Timestamp current
          /\ 5 * Second - Settings.TimeInterval settings * Second
               <= VolumeData.Timestamp volData).
Proof.
  apply (alert_only_if_fresh_and_unsuppressed openDatabase telegramBot
           (5 * Second) (map_to_list (priceHistory dropStore)) dropStore
           "BTCUSDT").
  - exact dropStore_order.
  - exact (dropStore_fired telegramBot).
Defined.

(** C2. When a symbol fires, its accumulator is gone after the pass
    whatever the bot answered; a later pass over any store in which that
    symbol still has no new accumulator does not fire it again, whatever
    its prices; and neither the alerts of the pass nor the store it leaves
    depend on the outcome of any delivery, so a failed delivery does not
    stop the other symbols from being processed. *)
Theorem fire_and_clear (db : Database) (bot : Bot) (now : Time)
    (order : list (string * list PriceData.t)) (m : Monitor)
    (symbol : string) :
  rangeOrder m order ->
  fired (analyzeData db bot now order m) symbol ->
  volumeData (store (analyzeData db bot now order m)) !! symbol = None
  /\ (forall db' bot' now' order' m',
        rangeOrder m' order' ->
        volumeData m' !! symbol
        = volumeData (store (analyzeData db bot now order m)) !! symbol ->
        ~ fired (analyzeData db' bot' now' order' m') symbol)
  /\ (forall bot',
        sent (analyzeData db bot' now order m)
        = sent (analyzeData db bot now order m)
        /\ store (analyzeData db bot' now order m)
           = store (analyzeData db bot now order m)).
Proof.
  intros Horder Hfired.
  destruct (analyzeData_volumeData db bot now order m Horder symbol)
    as [Hgone _].
  specialize (Hgone Hfired).
  split; [exact Hgone |]. split.
  - intros db' bot' now' order' m' Horder' Hsame Hagain.
    apply (analyzeData_fired db' bot' now' order' m' Horder') in Hagain
      as (s & h & alert & _ & _ & (c & v & sp & (_ & _ & _ & Hv & _) & _)).
    congruence.
  - intros bot'.
    destruct (analyzeData_bot db bot' bot now order m) as [Hstore Hsent].
    split; assumption.
Qed.

Lemma fire_and_clear_witness :
  volumeData
    (store
       (analyzeData openDatabase brokenBot (5 * Second)
          (map_to_list (priceHistory dropStore)) dropStore))
    !! "BTCUSDT" = None
  /\ failed
       (analyzeData openDatabase brokenBot (5 * Second)
          (map_to_list (priceHistory dropStore)) dropStore)
     = [("BTCUSDT", "delivery failed")].
Proof.
  split; [| reflexivity].
  apply (fire_and_clear openDatabase brokenBot (5 * Second)
           (map_to_list (priceHistory dropStore)) dropStore "BTCUSDT").
  - exact dropStore_order.
  - exact (dropStore_fired brokenBot).
Defined.

(** C10. A pass changes no price history; the only change it makes to the
    store is the removal of the accumulators of the symbols that fired in
    it, and for a symbol that did not fire both the history and the
    accumulator are what they were. *)
Theorem analysis_frame (db : Database) (bot : Bot) (now : Time)
    (order : list (string * list PriceData.t)) (m : Monitor) :
  rangeOrder m order ->
  priceHistory (store (analyzeData db bot now order m)) = priceHistory m
  /\ forall symbol,
       (fired (analyzeData db bot now order m) symbol ->
          volumeData (store (analyzeData db bot now order m)) !! symbol = None)
       /\ (~ fired (analyzeData db bot now order m) symbol ->
             volumeData (store (analyzeData db bot now order m)) !! symbol
             = volumeData m !! symbol
             /\ priceHistory (store (analyzeData db bot now order m)) !! symbol
                = priceHistory m !! symbol).
Proof.
  intros Horder.
  pose proof (analyzeData_priceHistory db bot now order m) as Hph.
  split; [exact Hph |].
  intros symbol.
  destruct (analyzeData_volumeData db bot now order m Horder symbol)
    as [Hgone Hkept].
  split; [exact Hgone |].
  intros Hnot. split; [exact (Hkept Hnot) | rewrite Hph; reflexivity].
Qed.

Lemma analysis_frame_witness :
  priceHistory
    (store
       (analyzeData openDatabase telegramBot (5 * Second)
          (map_to_list (priceHistory dropStore)) dropStore))
  = priceHistory dropStore.
Proof.
  apply (analysis_frame openDatabase telegramBot (5 * Second)
           (map_to_list (priceHistory dropStore)) dropStore).
  exact dropStore_order.
Defined.

(** ** The two ingestion paths *)

Lemma int_of_float_range (f : float) :
  - 2 ^ 63 <= int_of_float f < 2 ^ 63.
Proof.
  unfold int_of_float, int_indefinite.
  destruct (Prim2SF f) as [s | s | | s mant e]; try lia.
  cbv zeta.
  destruct ((- 2 ^ 63 <=? (if s then - Z.shiftl (Z.pos mant) e
                            else Z.shiftl (Z.pos mant) e))
            && ((if s then - Z.shiftl (Z.pos mant) e
                 else Z.shiftl (Z.pos mant) e) <? 2 ^ 63)) eqn:Hfit;
    [| lia].
  apply andb_true_iff in Hfit as [Hlo Hhi].
  apply Z.leb_le in Hlo. apply Z.ltb_lt in Hhi. lia.
Qed.

Section IngestionPaths.

Variable ParseFloat : string -> result float.
Variable symbol : string.

(** One stream trade of [symbol]: on an existing accumulator the handler
    does what the polling loop does to its running total. *)
Lemma handleTrade_existing now trade m volData :
  volumeData m !! symbol = Some volData ->
  exists at',
    volumeData
      (handleTrade ParseFloat now (TradeEvent (asTradeData symbol trade)) m)
      !! symbol
    = Some (VolumeData.mk
              (addNotional ParseFloat (VolumeData.Volume volData) trade) at').
Proof.
  intros Hvol. unfold handleTrade, addNotional, asTradeData; cbn.
  destruct (ParseFloat (TradeResponse.Price trade)) as [price | msg].
  2: { exists (VolumeData.Timestamp volData). rewrite Hvol.
       destruct volData; reflexivity. }
  destruct (ParseFloat (TradeResponse.Qty trade)) as [qty | msg].
  2: { exists (VolumeData.Timestamp volData). rewrite Hvol.
       destruct volData; reflexivity. }
  rewrite Hvol. cbn. exists now. apply lookup_insert_eq.
Qed.

(** One stream trade of [symbol] without accumulator: a trade that parses
    creates it with the running total the polling loop has after that
    trade; any other changes nothing. *)
Lemma handleTrade_absent now trade m :
  volumeData m !! symbol = None ->
  (parses ParseFloat trade
   /\ volumeData
        (handleTrade ParseFloat now (TradeEvent (asTradeData symbol trade)) m)
        !! symbol
      = Some (VolumeData.mk (addNotional ParseFloat 0 trade) now))
  \/ (~ parses ParseFloat trade
      /\ addNotional ParseFloat 0 trade = 0
      /\ handleTrade ParseFloat now (TradeEvent (asTradeData symbol trade)) m
         = m).
Proof.
  intros Hvol. unfold handleTrade, addNotional, asTradeData, parses; cbn.
  destruct (ParseFloat (TradeResponse.Price trade)) as [price | msg].
  2: { right. split; [| auto]. intros [[p Hp] _]. discriminate Hp. }
  destruct (ParseFloat (TradeResponse.Qty trade)) as [qty | msg].
  2: { right. split; [| auto]. intros [_ [q Hq]]. discriminate Hq. }
  left. split; [eauto |].
  rewrite Hvol. cbn. rewrite lookup_insert_eq.
  rewrite (wrap64_id (0 + _)); [reflexivity |].
  pose proof (int_of_float_range (price * qty)). lia.
Qed.

Lemma streamTrades_cons now trade timed m :
  streamTrades ParseFloat ((now, trade) :: timed) m
  = streamTrades ParseFloat timed
      (handleTrade ParseFloat now (TradeEvent trade) m).
Proof. reflexivity. Qed.

(** Streaming onto an existing accumulator continues the polling loop's
    sum from the accumulated volume. *)
Lemma streamTrades_existing timed m volData :
  volumeData m !! symbol = Some volData ->
  exists at',
    volumeData (streamTrades ParseFloat (asStream symbol timed) m) !! symbol
    = Some (VolumeData.mk
              (foldl (addNotional ParseFloat) (VolumeData.Volume volData)
                 timed.*2) at').
Proof.
  revert m volData. induction timed as [| [now trade] timed IH];
    intros m volData Hvol.
  - exists (VolumeData.Timestamp volData). cbn. rewrite Hvol.
    destruct volData; reflexivity.
  - cbn [asStream fmap list_fmap fst snd]. rewrite streamTrades_cons.
    destruct (handleTrade_existing now trade m volData Hvol) as [at1 Hstep].
    destruct (IH _ _ Hstep) as [at2 Hrest].
    exists at2. exact Hrest.
Qed.

(** Streaming onto a store without accumulator: once a trade parses, the
    accumulator holds the polling loop's total. *)
Lemma streamTrades_absent timed m :
  volumeData m !! symbol = None ->
  Exists (parses ParseFloat) timed.*2 ->
  exists at',
    volumeData (streamTrades ParseFloat (asStream symbol timed) m) !! symbol
    = Some (VolumeData.mk (totalVolume ParseFloat timed.*2) at').
Proof.
  revert m. induction timed as [| [now trade] timed IH]; intros m Hvol Hsome.
  - inversion Hsome.
  - cbn [asStream fmap list_fmap fst snd]. rewrite streamTrades_cons.
    unfold totalVolume. cbn [foldl].
    destruct (handleTrade_absent now trade m Hvol)
      as [[_ Hstep] | (Hnot & Hzero & Hsame)].
    + destruct (streamTrades_existing timed _ _ Hstep) as [at' Hrest].
      exists at'. exact Hrest.
    + rewrite Hsame, Hzero.
      cbn in Hsome. apply Exists_cons in Hsome as [Hhere | Hlater];
        [contradiction |].
      apply (IH m Hvol Hlater).
Qed.

End IngestionPaths.

(** C6, as the code has it. Both paths compute a trade's notional as price
    times quantity truncated to an integer and skip a trade that does not
    parse. The streaming handler adds the notional to the symbol's
    accumulator, creating it if absent; the polling path replaces the
    accumulator with the total of the fetched trades. The two leave the
    same accumulated volume when the symbol had no accumulator and at
    least one of the trades parses. *)
Theorem ingestion_paths_agree_from_empty
    (ParseFloat : string -> result float) (rest : RESTClient)
    (symbol : string) (timed : list (Time * TradeResponse.t)) (now : Time)
    (m : Monitor) :
  GetRecentTrades rest symbol = Ok timed.*2 ->
  volumeData (pollSymbol ParseFloat rest now symbol m) !! symbol
  = Some (VolumeData.mk (totalVolume ParseFloat timed.*2) now)
  /\ (volumeData m !! symbol = None ->
      Exists (parses ParseFloat) timed.*2 ->
      exists at',
        volumeData (streamTrades ParseFloat (asStream symbol timed) m)
          !! symbol
        = Some (VolumeData.mk (totalVolume ParseFloat timed.*2) at')).
Proof.
  intros Hfetch. split.
  - unfold pollSymbol. rewrite Hfetch. cbn. apply lookup_insert_eq.
  - intros Hvol Hsome.
    apply (streamTrades_absent ParseFloat symbol timed m Hvol Hsome).
Qed.

Lemma ingestion_paths_agree_from_empty_witness :
  volumeData (pollSymbol parseDecimal snapshotClient 9 "BTCUSDT" emptyStore)
    !! "BTCUSDT"
  = Some (VolumeData.mk 200 9)
  /\ exists at',
       volumeData
         (streamTrades parseDecimal (asStream "BTCUSDT" [(7, recentTrade)])
            emptyStore)
         !! "BTCUSDT"
       = Some (VolumeData.mk 200 at').
Proof.
  destruct (ingestion_paths_agree_from_empty parseDecimal snapshotClient
              "BTCUSDT" [(7, recentTrade)] 9 emptyStore eq_refl)
    as [Hpoll Hstream].
  split; [exact Hpoll |].
  apply Hstream; [reflexivity |].
  apply Exists_cons_hd. split; eexists; reflexivity.
Defined.

(** C6 as stated fails: on a symbol that already has 1000 of volume, one
    trade of 2 units at 100 leaves 1200 through the stream handler and 200
    through the polling path. *)
Lemma ingestion_paths_differ_on_existing_accumulator :
  volumeData (pollSymbol parseDecimal snapshotClient 7 "BTCUSDT" busyStore)
    !! "BTCUSDT"
  = Some (VolumeData.mk 200 7)
  /\ volumeData
       (streamTrades parseDecimal (asStream "BTCUSDT" [(7, recentTrade)])
          busyStore)
       !! "BTCUSDT"
     = Some (VolumeData.mk 1200 7)
  /\ volumeData (pollSymbol parseDecimal snapshotClient 7 "BTCUSDT" busyStore)
       !! "BTCUSDT"
     <> volumeData
          (streamTrades parseDecimal (asStream "BTCUSDT" [(7, recentTrade)])
             busyStore)
          !! "BTCUSDT".
Proof.
  split; [reflexivity |]. split; [reflexivity |].
  vm_compute. discriminate.
Qed.

(** ** The pruning pass *)

Lemma pruneHistory_from (horizon : Time) (history kept : list PriceData.t) :
  foldl
    (fun newHistory priceData =>
       if After (PriceData.Timestamp priceData) horizon
       then newHistory ++ [priceData]
       else newHistory)
    kept history
  = kept
    ++ List.filter (fun priceData => After (PriceData.Timestamp priceData) horizon)
         history.
Proof.
  revert kept. induction history as [| priceData history IH]; intros kept; cbn.
  - symmetry. apply app_nil_r.
  - rewrite IH.
    destruct (After (PriceData.Timestamp priceData) horizon);
      [rewrite <- app_assoc |]; reflexivity.
Qed.

(** The samples kept are those strictly after the horizon, in order. *)
Lemma pruneHistory_filter (horizon : Time) (history : list PriceData.t) :
  pruneHistory horizon history
  = List.filter (fun priceData => After (PriceData.Timestamp priceData) horizon)
      history.
Proof. unfold pruneHistory. apply pruneHistory_from. Qed.

Lemma pruneHistory_idempotent (horizon : Time) (history : list PriceData.t) :
  pruneHistory horizon (pruneHistory horizon history)
  = pruneHistory horizon history.
Proof.
  rewrite !pruneHistory_filter.
  induction history as [| priceData history IH]; cbn; [reflexivity |].
  destruct (After (PriceData.Timestamp priceData) horizon) eqn:Hkeep; cbn;
    [rewrite Hkeep, IH; reflexivity | exact IH].
Qed.

(** The first loop of [cleanup] replaces every history by its pruned
    version and keeps every key. *)
Lemma cleanup_priceHistory (db : Database) (now : Time) (m : Monitor)
    (symbol : string) :
  priceHistory (cleanup db now m) !! symbol
  = pruneHistory (retentionHorizon now) <$> priceHistory m !! symbol.
Proof.
  unfold cleanup; cbn.
  set (f := fun (symbol : string) (history : list PriceData.t)
                (acc : gmap string (list PriceData.t)) =>
              <[symbol := pruneHistory (retentionHorizon now) history]> acc).
  assert (Hfold : forall visited : gmap string (list PriceData.t),
             forall key,
               map_fold f (priceHistory m) visited !! key
               = match visited !! key with
                 | Some history =>
                     Some (pruneHistory (retentionHorizon now) history)
                 | None => priceHistory m !! key
                 end).
  { intros visited.
    apply (map_fold_weak_ind
             (fun acc visited =>
                forall key,
                  acc !! key
                  = match visited !! key with
                    | Some history =>
                        Some (pruneHistory (retentionHorizon now) history)
                    | None => priceHistory m !! key
                    end)).
    - intros key. rewrite lookup_empty. reflexivity.
    - intros i history visited' acc Hfresh IH key. unfold f.
      destruct (decide (i = key)) as [-> | Hne].
      + rewrite !lookup_insert_eq. reflexivity.
      + rewrite !lookup_insert_ne by exact Hne. apply IH. }
  rewrite Hfold. destruct (priceHistory m !! symbol); reflexivity.
Qed.

(** The second loop of [cleanup] deletes the accumulators strictly before
    the horizon and keeps the others as they are. *)
Lemma cleanup_volumeData (db : Database) (now : Time) (m : Monitor)
    (symbol : string) :
  volumeData (cleanup db now m) !! symbol
  = match volumeData m !! symbol with
    | Some volData =>
        if Before (VolumeData.Timestamp volData) (retentionHorizon now)
        then None
        else Some volData
    | None => None
    end.
Proof.
  unfold cleanup; cbn.
  set (f := fun (symbol : string) (volData : VolumeData.t)
                (acc : gmap string VolumeData.t) =>
              if Before (VolumeData.Timestamp volData) (retentionHorizon now)
              then delete symbol acc
              else acc).
  assert (Hfold : forall visited : gmap string VolumeData.t,
             forall key,
               map_fold f (volumeData m) visited !! key
               = match visited !! key with
                 | Some volData =>
                     if Before (VolumeData.Timestamp volData)
                          (retentionHorizon now)
                     then None
                     else volumeData m !! key
                 | None => volumeData m !! key
                 end).
  { intros visited.
    apply (map_fold_weak_ind
             (fun acc visited =>
                forall key,
                  acc !! key
                  = match visited !! key with
                    | Some volData =>
                        if Before (VolumeData.Timestamp volData)
                             (retentionHorizon now)
                        then None
                        else volumeData m !! key
                    | None => volumeData m !! key
                    end)).
    - intros key. rewrite lookup_empty. reflexivity.
    - intros i volData visited' acc Hfresh IH key. unfold f.
      destruct (decide (i = key)) as [-> | Hne].
      + rewrite lookup_insert_eq.
        destruct (Before (VolumeData.Timestamp volData) (retentionHorizon now)).
        * apply lookup_delete_eq.
        * rewrite IH, Hfresh. reflexivity.
      + rewrite lookup_insert_ne by exact Hne.
        destruct (Before (VolumeData.Timestamp volData) (retentionHorizon now)).
        * rewrite lookup_delete_ne by exact Hne. apply IH.
        * apply IH. }
  rewrite Hfold. destruct (volumeData m !! symbol) as [volData |] eqn:Hvol;
    [| reflexivity].
  destruct (Before _ _); reflexivity.
Qed.

(** C7, where the code departs from it. A sample whose timestamp is exactly
    the retention horizon is dropped by [cleanup]: the first loop keeps a
    sample only when it is strictly after the horizon, whereas the second
    loop keeps an accumulator that sits on the horizon. *)
Theorem cleanup_drops_boundary_sample (db : Database) (now : Time)
    (m : Monitor) (symbol : string) (history : list PriceData.t)
    (sample : PriceData.t) (volData : VolumeData.t) :
  priceHistory m !! symbol = Some history ->
  sample ∈ history ->
  PriceData.Timestamp sample = retentionHorizon now ->
  volumeData m !! symbol = Some volData ->
  VolumeData.Timestamp volData = retentionHorizon now ->
  (exists kept,
      priceHistory (cleanup db now m) !! symbol = Some kept
      /\ sample ∉ kept)
  /\ volumeData (cleanup db now m) !! symbol = Some volData.
Proof.
  intros Hhist Hin Hts Hvol Hvts. split.
  - exists (pruneHistory (retentionHorizon now) history). split.
    + rewrite cleanup_priceHistory, Hhist. reflexivity.
    + rewrite pruneHistory_filter. intros Hkept.
      apply list_elem_of_In, filter_In in Hkept as [_ Hafter].
      unfold After in Hafter. apply Z.ltb_lt in Hafter. lia.
  - rewrite cleanup_volumeData, Hvol. unfold Before.
    rewrite Hvts, Z.ltb_irrefl. reflexivity.
Qed.

Lemma cleanup_drops_boundary_sample_witness :
  (exists kept,
      priceHistory (cleanup openDatabase (10 * Minute) boundaryStore)
        !! "BTCUSDT" = Some kept
      /\ boundarySample ∉ kept)
  /\ volumeData (cleanup openDatabase (10 * Minute) boundaryStore)
       !! "BTCUSDT" = Some (VolumeData.mk 5000 0).
Proof.
  apply (cleanup_drops_boundary_sample openDatabase (10 * Minute)
           boundaryStore "BTCUSDT" [boundarySample] boundarySample
           (VolumeData.mk 5000 0)).
  - reflexivity.
  - apply list_elem_of_here.
  - reflexivity.
  - reflexivity.
  - reflexivity.
Defined.

Lemma Monitor_eq (a b : Monitor) :
  priceHistory a = priceHistory b -> volumeData a = volumeData b -> a = b.
Proof. destruct a, b; cbn; intros -> ->; reflexivity. Qed.

(** C8. Pruning is idempotent: a second pruning pass at the same instant,
    with nothing written in between, leaves the store the first one
    produced. *)
Theorem cleanup_idempotent (db db' : Database) (now : Time) (m : Monitor) :
  cleanup db' now (cleanup db now m) = cleanup db now m.
Proof.
  apply Monitor_eq; apply map_eq; intros symbol.
  - rewrite !cleanup_priceHistory.
    destruct (priceHistory m !! symbol) as [history |]; cbn;
      [rewrite pruneHistory_idempotent |]; reflexivity.
  - rewrite (cleanup_volumeData db' now (cleanup db now m)).
    rewrite cleanup_volumeData.
    destruct (volumeData m !! symbol) as [volData |]; [| reflexivity].
    destruct (Before (VolumeData.Timestamp volData) (retentionHorizon now))
      eqn:Hold; [reflexivity |].
    rewrite Hold. reflexivity.
Qed.

(** ** The read loop of the stream client *)

(** C9, where the code departs from it. When a read fails and the
    reconnect attempt that follows fails too, [readMessages] sleeps and
    goes round once more, finds [conn] to be [nil] and returns: the loop
    ends after a single reconnect attempt, with no shutdown requested. *)
Theorem readMessages_returns_after_failed_reconnect (net : Client.Network)
    (c : Client.t) (handle : nat) (readError dialError : string)
    (fuel : nat) :
  Client.conn c = Some handle ->
  (forall k, Client.Done net k = false) ->
  Client.ReadMessage net (Client.reads c) = Err readError ->
  Client.Dial net (Client.dials c) = Err dialError ->
  exists c',
    Client.readMessages net (S (S fuel)) c = Some c'
    /\ Client.conn c' = None
    /\ Client.trace c'
       = Client.trace c
         ++ [Client.ReadFailed; Client.ConnClosed; Client.Slept (2 * Second);
             Client.DialFailed; Client.Slept (5 * Second)]
    /\ Client.dials c' = S (Client.dials c).
Proof.
  intros Hconn Hrun Hread Hdial.
  destruct c as [conn0 dials0 reads0 turns0 trace0].
  cbn [Client.conn Client.dials Client.reads Client.trace] in *.
  subst conn0.
  cbn [Client.readMessages]. unfold Client.readTurn at 1.
  rewrite Hrun.
  cbn [Client.conn Client.dials Client.reads Client.turns Client.trace].
  rewrite Hread.
  unfold Client.reconnect, Client.Connect, Client.act, Client.setConn.
  cbn [Client.conn Client.dials Client.reads Client.turns Client.trace].
  rewrite Hdial.
  unfold Client.readTurn.
  cbn [Client.conn Client.dials Client.reads Client.turns Client.trace].
  rewrite Hrun.
  eexists. split; [reflexivity |].
  cbn [Client.conn Client.dials Client.reads Client.turns Client.trace].
  split; [reflexivity |]. split; [| reflexivity].
  rewrite <- !app_assoc. reflexivity.
Qed.

Lemma readMessages_returns_after_failed_reconnect_witness :
  exists c',
    Client.readMessages deadNetwork 1000 connected = Some c'
    /\ Client.conn c' = None
    /\ Client.trace c'
       = [Client.ReadFailed; Client.ConnClosed; Client.Slept (2 * Second);
          Client.DialFailed; Client.Slept (5 * Second)]
    /\ Client.dials c' = 2%nat.
Proof.
  apply (readMessages_returns_after_failed_reconnect deadNetwork connected
           0%nat "unexpected EOF" "connection refused" 998).
  - reflexivity.
  - intros k. reflexivity.
  - reflexivity.
  - reflexivity.
Defined.

(** * Further properties of the code *)

(** ** The stream handlers *)

Lemma wrap64_range (z : Z) : - 2 ^ 63 <= wrap64 z < 2 ^ 63.
Proof.
  unfold wrap64. pose proof (Z.mod_pos_bound (z + 2 ^ 63) (2 ^ 64)). lia.
Qed.

(** X1. [handleTrade] never touches a price history nor the accumulator of
    another symbol. A trade whose price and quantity parse leaves its
    symbol with an accumulator stamped [now] that holds the notional, added
    (with 64-bit wrap-around) to the volume accumulated before; anything
    else, a trade that does not parse or an event that is not a trade,
    leaves the store as it was. *)
Theorem handleTrade_accumulates (ParseFloat : string -> result float)
    (now : Time) (data : Event) (m : Monitor) :
  priceHistory (handleTrade ParseFloat now data m) = priceHistory m
  /\ (forall symbol,
        (forall trade, data = TradeEvent trade ->
           TradeData.Symbol trade <> symbol) ->
        volumeData (handleTrade ParseFloat now data m) !! symbol
        = volumeData m !! symbol)
  /\ (forall trade price quantity,
        data = TradeEvent trade ->
        ParseFloat (TradeData.Price trade) = Ok price ->
        ParseFloat (TradeData.Quantity trade) = Ok quantity ->
        volumeData (handleTrade ParseFloat now data m)
          !! TradeData.Symbol trade
        = Some (VolumeData.mk
                  (match volumeData m !! TradeData.Symbol trade with
                   | Some volData =>
                       wrap64 (VolumeData.Volume volData
                               + int_of_float (price * quantity))
                   | None => int_of_float (price * quantity)
                   end)
                  now))
  /\ ((forall trade,
         data = TradeEvent trade ->
         (exists msg, ParseFloat (TradeData.Price trade) = Err msg)
         \/ (exists msg, ParseFloat (TradeData.Quantity trade) = Err msg)) ->
      handleTrade ParseFloat now data m = m).
Proof.
  unfold handleTrade. repeat split.
  - destruct data as [trade | |]; try reflexivity.
    destruct (ParseFloat (TradeData.Price trade)); [| reflexivity].
    destruct (ParseFloat (TradeData.Quantity trade)); [| reflexivity].
    destruct (volumeData m !! TradeData.Symbol trade); reflexivity.
  - intros symbol Hother.
    destruct data as [trade | |]; try reflexivity.
    specialize (Hother trade eq_refl).
    destruct (ParseFloat (TradeData.Price trade)); [| reflexivity].
    destruct (ParseFloat (TradeData.Quantity trade)); [| reflexivity].
    destruct (volumeData m !! TradeData.Symbol trade); cbn;
      apply lookup_insert_ne; exact Hother.
  - intros trade price quantity -> -> ->.
    destruct (volumeData m !! TradeData.Symbol trade); cbn;
      apply lookup_insert_eq.
  - intros Hbad. destruct data as [trade | |]; try reflexivity.
    destruct (Hbad trade eq_refl) as [[msg Hmsg] | [msg Hmsg]]; rewrite Hmsg;
      [reflexivity |].
    destruct (ParseFloat (TradeData.Price trade)); reflexivity.
Qed.

(** X2. [handleTicker] on a ticker whose price parses appends one sample,
    the parsed price stamped [now], at the end of the symbol's history
    (creating the history if there was none); it changes no other history
    and no accumulator. *)
Theorem handleTicker_appends (ParseFloat : string -> result float)
    (now : Time) (ticker : TickerData.t) (m : Monitor) (price : float) :
  ParseFloat (TickerData.Price ticker) = Ok price ->
  priceHistory (handleTicker ParseFloat now (TickerEvent ticker) m)
    !! TickerData.Symbol ticker
  = Some (default [] (priceHistory m !! TickerData.Symbol ticker)
          ++ [PriceData.mk price now])
  /\ (forall other, other <> TickerData.Symbol ticker ->
        priceHistory (handleTicker ParseFloat now (TickerEvent ticker) m)
          !! other
        = priceHistory m !! other)
  /\ volumeData (handleTicker ParseFloat now (TickerEvent ticker) m)
     = volumeData m.
Proof.
  intros Hprice. unfold handleTicker, appendPrice. rewrite Hprice.
  destruct (priceHistory m !! TickerData.Symbol ticker) as [history |];
    cbn; repeat split;
    try apply lookup_insert_eq;
    intros other Hother; apply lookup_insert_ne; congruence.
Qed.

Lemma handleTicker_appends_witness :
  priceHistory (handleTicker parseDecimal 7 (TickerEvent tickerUpdate) dropStore)
    !! "BTCUSDT"
  = Some (dropHistory ++ [PriceData.mk 100 7]).
Proof.
  apply (handleTicker_appends parseDecimal 7 tickerUpdate dropStore 100).
  reflexivity.
Defined.

Lemma chronological_snoc (history : list PriceData.t) (sample : PriceData.t) :
  chronological history ->
  (forall latest, last history = Some latest ->
     PriceData.Timestamp latest <= PriceData.Timestamp sample) ->
  chronological (history ++ [sample]).
Proof.
  intros Hsorted Hlast. apply StronglySorted_app_2.
  - intros x1 x2 Hx1 ->%list_elem_of_singleton.
    destruct (last history) as [latest |] eqn:Hl.
    + specialize (Hlast latest eq_refl).
      apply last_Some in Hl as [front ->].
      apply elem_of_app in Hx1 as [Hfront | ->%list_elem_of_singleton];
        [| exact Hlast].
      pose proof (StronglySorted_app_1_elem_of _ front [latest] x1 latest
                    Hsorted Hfront (list_elem_of_here _ _)) as Hle.
      cbn in Hle. lia.
    + apply last_None in Hl. subst history. inversion Hx1.
  - exact Hsorted.
  - repeat constructor.
Qed.

Lemma chronological_filter (keep : PriceData.t -> bool)
    (history : list PriceData.t) :
  chronological history -> chronological (List.filter keep history).
Proof.
  unfold chronological. induction 1 as [| sample history Hsorted IH Hall]; cbn.
  - constructor.
  - destruct (keep sample); [| exact IH].
    constructor; [exact IH |].
    apply Forall_forall. intros later Hin.
    apply list_elem_of_In, filter_In in Hin as [Hin _].
    rewrite Forall_forall in Hall. apply Hall, list_elem_of_In, Hin.
Qed.

(** X3. Time order is kept. If every history of the store is in time
    order, it still is after [cleanup]; and it still is after
    [handleTicker], provided the clock reading [now] is not before the
    latest sample of the ticker's symbol. *)
Theorem time_order_is_kept (m : Monitor) :
  storeChronological m ->
  (forall db now, storeChronological (cleanup db now m))
  /\ (forall ParseFloat now ticker,
        (forall history latest,
           priceHistory m !! TickerData.Symbol ticker = Some history ->
           last history = Some latest ->
           PriceData.Timestamp latest <= now) ->
        storeChronological
          (handleTicker ParseFloat now (TickerEvent ticker) m)).
Proof.
  intros Hstore. split.
  - intros db now symbol kept Hkept.
    rewrite cleanup_priceHistory in Hkept.
    destruct (priceHistory m !! symbol) as [history |] eqn:Hhist;
      [| discriminate Hkept].
    injection Hkept as <-. rewrite pruneHistory_filter.
    apply chronological_filter, (Hstore symbol history Hhist).
  - intros ParseFloat now ticker Hclock symbol history' Hafter.
    unfold handleTicker in Hafter.
    destruct (ParseFloat (TickerData.Price ticker)) as [price | msg];
      [| exact (Hstore symbol history' Hafter)].
    unfold appendPrice in Hafter.
    destruct (decide (symbol = TickerData.Symbol ticker)) as [-> | Hother].
    + destruct (priceHistory m !! TickerData.Symbol ticker)
        as [history |] eqn:Hhist; cbn in Hafter;
        rewrite lookup_insert_eq in Hafter; injection Hafter as <-.
      * apply chronological_snoc; [exact (Hstore _ _ Hhist) |].
        intros latest Hlatest. cbn. exact (Hclock history latest eq_refl Hlatest).
      * repeat constructor.
    + destruct (priceHistory m !! TickerData.Symbol ticker); cbn in Hafter;
        rewrite lookup_insert_ne in Hafter by congruence;
        exact (Hstore symbol history' Hafter).
Qed.

Lemma dropStore_chronological : storeChronological dropStore.
Proof.
  intros symbol history Hhist.
  unfold dropStore in Hhist. cbn [priceHistory] in Hhist.
  apply lookup_singleton_Some in Hhist as [_ <-].
  unfold chronological, dropHistory.
  repeat constructor. cbn. unfold Second. lia.
Qed.

Lemma time_order_is_kept_witness :
  storeChronological (cleanup openDatabase (10 * Minute) dropStore)
  /\ storeChronological
       (handleTicker parseDecimal (6 * Second) (TickerEvent tickerUpdate)
          dropStore).
Proof.
  destruct (time_order_is_kept dropStore dropStore_chronological)
    as [Hprune Hticker].
  split; [apply Hprune |].
  apply Hticker. intros history latest Hhist Hlatest.
  unfold dropStore in Hhist. cbn [priceHistory] in Hhist.
  apply lookup_singleton_Some in Hhist as [_ <-].
  injection Hlatest as <-. cbn. unfold Second. lia.
Defined.

(** ** The polling path *)

Lemma wrap64_add_r (a b : Z) : wrap64 (a + wrap64 b) = wrap64 (a + b).
Proof.
  unfold wrap64. f_equal.
  replace (a + ((b + 2 ^ 63) mod 2 ^ 64 - 2 ^ 63) + 2 ^ 63)
    with (a + (b + 2 ^ 63) mod 2 ^ 64) by lia.
  rewrite Zplus_mod_idemp_r. f_equal. lia.
Qed.

Lemma wrap64_add_l (a b : Z) : wrap64 (wrap64 a + b) = wrap64 (a + b).
Proof. rewrite (Z.add_comm (wrap64 a)), wrap64_add_r. f_equal. lia. Qed.

Section TotalVolume.

Variable ParseFloat : string -> result float.

Lemma addNotional_range total trade :
  - 2 ^ 63 <= total < 2 ^ 63 ->
  - 2 ^ 63 <= addNotional ParseFloat total trade < 2 ^ 63.
Proof.
  intros Htotal. unfold addNotional.
  destruct (ParseFloat (TradeResponse.Price trade)); [| exact Htotal].
  destruct (ParseFloat (TradeResponse.Qty trade)); [| exact Htotal].
  apply wrap64_range.
Qed.

Lemma foldl_addNotional_range trades total :
  - 2 ^ 63 <= total < 2 ^ 63 ->
  - 2 ^ 63 <= foldl (addNotional ParseFloat) total trades < 2 ^ 63.
Proof.
  revert total. induction trades as [| trade trades IH]; intros total Htotal;
    cbn; [exact Htotal |].
  apply IH, addNotional_range, Htotal.
Qed.

(** Starting the loop from [total] instead of [0] shifts the result by
    [total], modulo [2^64]. *)
Lemma foldl_addNotional_shift trades total :
  wrap64 (foldl (addNotional ParseFloat) total trades)
  = wrap64 (total + foldl (addNotional ParseFloat) 0 trades).
Proof.
  revert total. induction trades as [| trade trades IH]; intros total; cbn.
  - f_equal. lia.
  - rewrite IH. rewrite <- (wrap64_add_r total), (IH (addNotional _ 0 _)).
    rewrite wrap64_add_r.
    unfold addNotional.
    destruct (ParseFloat (TradeResponse.Price trade)); [| f_equal; lia].
    destruct (ParseFloat (TradeResponse.Qty trade)); [| f_equal; lia].
    rewrite wrap64_add_l. rewrite <- (wrap64_add_r total), wrap64_add_l.
    rewrite wrap64_add_r. f_equal. lia.
Qed.

End TotalVolume.

(** X4. The total the polling loop computes for a run of trades followed
    by another is the sum of the two totals, reduced to 64 bits; the total
    of no trade is [0], and every total is a value of [int]. *)
Theorem totalVolume_app (ParseFloat : string -> result float)
    (trades more : list TradeResponse.t) :
  totalVolume ParseFloat (trades ++ more)
  = wrap64 (totalVolume ParseFloat trades + totalVolume ParseFloat more)
  /\ totalVolume ParseFloat [] = 0
  /\ - 2 ^ 63 <= totalVolume ParseFloat trades < 2 ^ 63.
Proof.
  assert (Hrange : forall l, - 2 ^ 63 <= totalVolume ParseFloat l < 2 ^ 63).
  { intros l. apply foldl_addNotional_range. lia. }
  split; [| split; [reflexivity | apply Hrange]].
  rewrite <- (wrap64_id (totalVolume ParseFloat (trades ++ more)))
    by apply Hrange.
  unfold totalVolume. rewrite foldl_app. apply foldl_addNotional_shift.
Qed.

Section PollPrices.

Variable ParseFloat : string -> result float.
Variable rest : RESTClient.
Variable clock : nat -> Time.
Variable symbols : list string.

Lemma tracked_elem (symbol : string) :
  existsb (fun tracked => String.eqb tracked symbol) symbols = true ->
  symbol ∈ symbols.
Proof.
  intros Hfound. apply existsb_exists in Hfound as (tracked & Hin & Heq).
  apply String.eqb_eq in Heq as <-. apply list_elem_of_In, Hin.
Qed.

(** One ticker of the snapshot: no accumulator changes, no history of an
    untracked symbol changes, and a history only grows at its end. *)
Lemma pollTicker_effect now ticker m :
  volumeData (pollTicker ParseFloat symbols now ticker m) = volumeData m
  /\ (forall symbol, symbol ∉ symbols ->
        priceHistory (pollTicker ParseFloat symbols now ticker m) !! symbol
        = priceHistory m !! symbol)
  /\ (forall symbol history,
        priceHistory m !! symbol = Some history ->
        exists added,
          priceHistory (pollTicker ParseFloat symbols now ticker m) !! symbol
          = Some (history ++ added)).
Proof.
  unfold pollTicker.
  destruct (existsb _ symbols) eqn:Htracked.
  2: { repeat split; try reflexivity.
       intros symbol history Hhist. exists []. rewrite app_nil_r. exact Hhist. }
  apply tracked_elem in Htracked.
  destruct (ParseFloat (TickerResponse.Price ticker)) as [price | msg].
  2: { repeat split; try reflexivity.
       intros symbol history Hhist. exists []. rewrite app_nil_r. exact Hhist. }
  unfold appendPrice. split; [| split].
  - destruct (priceHistory m !! TickerResponse.Symbol ticker); reflexivity.
  - intros symbol Huntracked.
    assert (TickerResponse.Symbol ticker <> symbol) by congruence.
    destruct (priceHistory m !! TickerResponse.Symbol ticker); cbn;
      apply lookup_insert_ne; assumption.
  - intros symbol history Hhist.
    destruct (decide (TickerResponse.Symbol ticker = symbol)) as [Heq | Hne].
    + rewrite Heq, Hhist. cbn. rewrite lookup_insert_eq. eauto.
    + exists []. rewrite app_nil_r.
      destruct (priceHistory m !! TickerResponse.Symbol ticker); cbn;
        rewrite lookup_insert_ne by exact Hne; exact Hhist.
Qed.

Lemma pollTicker_loop (entries : list (nat * TickerResponse.t)) m :
  let m' :=
    foldl (fun m '(k, ticker) => pollTicker ParseFloat symbols (clock k) ticker m)
      m entries in
  volumeData m' = volumeData m
  /\ (forall symbol, symbol ∉ symbols ->
        priceHistory m' !! symbol = priceHistory m !! symbol)
  /\ (forall symbol history,
        priceHistory m !! symbol = Some history ->
        exists added, priceHistory m' !! symbol = Some (history ++ added)).
Proof.
  revert m. induction entries as [| [k ticker] entries IH]; intros m; cbn.
  - repeat split; try reflexivity.
    intros symbol history Hhist. exists []. rewrite app_nil_r. exact Hhist.
  - destruct (pollTicker_effect (clock k) ticker m) as (Hvol & Hother & Hgrow).
    destruct (IH (pollTicker ParseFloat symbols (clock k) ticker m))
      as (Hvol' & Hother' & Hgrow').
    split; [congruence |]. split.
    + intros symbol Huntracked.
      rewrite (Hother' symbol Huntracked). apply Hother, Huntracked.
    + intros symbol history Hhist.
      destruct (Hgrow symbol history Hhist) as [added Hadded].
      destruct (Hgrow' symbol _ Hadded) as [added' Hadded'].
      exists (added ++ added'). rewrite app_assoc. exact Hadded'.
Qed.

(** The second loop: no history changes; an accumulator changes only for
    a visited symbol whose trades were fetched, and then holds their
    total. *)
Lemma pollSymbol_loop (entries : list (nat * string)) m :
  let m' :=
    foldl (fun m '(k, symbol) => pollSymbol ParseFloat rest (clock k) symbol m)
      m entries in
  priceHistory m' = priceHistory m
  /\ (forall symbol,
        symbol ∉ entries.*2
        \/ (exists msg, GetRecentTrades rest symbol = Err msg) ->
        volumeData m' !! symbol = volumeData m !! symbol)
  /\ (forall symbol trades,
        symbol ∈ entries.*2 ->
        GetRecentTrades rest symbol = Ok trades ->
        exists at',
          volumeData m' !! symbol
          = Some (VolumeData.mk (totalVolume ParseFloat trades) at')).
Proof.
  induction entries as [| [k visited] entries IH] using rev_ind; cbn.
  - repeat split; try reflexivity. intros symbol trades Hin. inversion Hin.
  - rewrite foldl_app. cbn. destruct IH as (Hph & Hkeep & Hset).
    set (m1 := foldl _ m entries) in *.
    rewrite fmap_app. cbn [fmap list_fmap snd].
    unfold pollSymbol at 1 2 3.
    destruct (GetRecentTrades rest visited) as [fetched | msg] eqn:Hfetch; cbn.
    + split; [exact Hph |]. split.
      * intros symbol Hcase.
        assert (visited <> symbol) as Hne.
        { intros ->. destruct Hcase as [Hnot | [msg Hmsg]]; [| congruence].
          apply Hnot, elem_of_app. right. apply list_elem_of_here. }
        rewrite lookup_insert_ne by exact Hne. apply Hkeep.
        destruct Hcase as [Hnot | Herr]; [left | right; exact Herr].
        intros Hin. apply Hnot, elem_of_app. left. exact Hin.
      * intros symbol trades Hin Htrades.
        destruct (decide (visited = symbol)) as [-> | Hne].
        -- rewrite lookup_insert_eq. exists (clock k). congruence.
        -- rewrite lookup_insert_ne by exact Hne.
           apply Hset; [| exact Htrades].
           apply elem_of_app in Hin as [Hin | Hin%list_elem_of_singleton];
             [exact Hin | congruence].
    + split; [exact Hph |]. split.
      * intros symbol Hcase. apply Hkeep.
        destruct Hcase as [Hnot | Herr]; [left | right; exact Herr].
        intros Hin. apply Hnot, elem_of_app. left. exact Hin.
      * intros symbol trades Hin Htrades.
        apply Hset; [| exact Htrades].
        apply elem_of_app in Hin as [Hin | Hin%list_elem_of_singleton];
          [exact Hin | congruence].
Qed.

End PollPrices.

Lemma pollPrices_split (ParseFloat : string -> result float)
    (rest : RESTClient) (clock : nat -> Time) (symbols : list string)
    (m : Monitor) (tickers : list TickerResponse.t) :
  GetAllTickers rest = Ok tickers ->
  pollPrices ParseFloat rest clock symbols m
  = foldl (fun m '(k, symbol) => pollSymbol ParseFloat rest (clock k) symbol m)
      (foldl
         (fun m '(k, ticker) => pollTicker ParseFloat symbols (clock k) ticker m)
         m (zip (seq 0 (length tickers)) tickers))
      (zip (seq (length tickers) (length symbols)) symbols).
Proof. intros Hsnapshot. unfold pollPrices. rewrite Hsnapshot. reflexivity. Qed.

Lemma zip_seq_snd {A : Type} (start : nat) (l : list A) :
  (zip (seq start (length l)) l).*2 = l.
Proof. apply snd_zip. rewrite length_seq. reflexivity. Qed.

(** X5. [pollPrices] leaves alone every symbol that is not in the list it
    is given: neither its price history nor its accumulator changes,
    whatever the snapshot contains. *)
Theorem pollPrices_ignores_untracked (ParseFloat : string -> result float)
    (rest : RESTClient) (clock : nat -> Time) (symbols : list string)
    (m : Monitor) (symbol : string) :
  symbol ∉ symbols ->
  priceHistory (pollPrices ParseFloat rest clock symbols m) !! symbol
  = priceHistory m !! symbol
  /\ volumeData (pollPrices ParseFloat rest clock symbols m) !! symbol
     = volumeData m !! symbol.
Proof.
  intros Huntracked.
  destruct (GetAllTickers rest) as [tickers | msg] eqn:Hsnapshot.
  2: { unfold pollPrices. rewrite Hsnapshot. split; reflexivity. }
  rewrite (pollPrices_split _ _ _ _ _ tickers Hsnapshot).
  set (m1 := foldl _ m (zip (seq 0 (length tickers)) tickers)).
  destruct (pollTicker_loop ParseFloat clock symbols
              (zip (seq 0 (length tickers)) tickers) m)
    as (Hvol1 & Hother1 & _). fold m1 in Hvol1, Hother1.
  destruct (pollSymbol_loop ParseFloat rest clock
              (zip (seq (length tickers) (length symbols)) symbols) m1)
    as (Hph2 & Hkeep2 & _).
  split.
  - rewrite Hph2. apply Hother1, Huntracked.
  - rewrite Hkeep2, Hvol1; [reflexivity |].
    left. rewrite zip_seq_snd. exact Huntracked.
Qed.

Lemma pollPrices_ignores_untracked_witness :
  priceHistory
    (pollPrices parseDecimal tickerSnapshot tickingClock ["ETHUSDT"] dropStore)
    !! "BTCUSDT"
  = Some dropHistory
  /\ volumeData
       (pollPrices parseDecimal tickerSnapshot tickingClock ["ETHUSDT"]
          dropStore)
       !! "BTCUSDT"
     = Some (VolumeData.mk 5000 (5 * Second)).
Proof.
  apply (pollPrices_ignores_untracked parseDecimal tickerSnapshot tickingClock
           ["ETHUSDT"] dropStore "BTCUSDT").
  intros Hin. apply list_elem_of_singleton in Hin. discriminate Hin.
Defined.

(** X6. What [pollPrices] does to the accumulator of a tracked symbol.
    When the snapshot of all tickers cannot be fetched the call returns at
    once and changes nothing, so no trade is polled either. Otherwise a
    symbol whose recent trades were fetched ends with an accumulator that
    holds exactly their total, whatever it held before (the old volume is
    overwritten, not added to), and a symbol whose trades could not be
    fetched keeps the accumulator it had. *)
Theorem pollPrices_sets_volume (ParseFloat : string -> result float)
    (rest : RESTClient) (clock : nat -> Time) (symbols : list string)
    (m : Monitor) (symbol : string) :
  symbol ∈ symbols ->
  (forall msg,
     GetAllTickers rest = Err msg ->
     pollPrices ParseFloat rest clock symbols m = m)
  /\ (forall tickers trades,
        GetAllTickers rest = Ok tickers ->
        GetRecentTrades rest symbol = Ok trades ->
        exists at',
          volumeData (pollPrices ParseFloat rest clock symbols m) !! symbol
          = Some (VolumeData.mk (totalVolume ParseFloat trades) at'))
  /\ (forall msg,
        GetRecentTrades rest symbol = Err msg ->
        volumeData (pollPrices ParseFloat rest clock symbols m) !! symbol
        = volumeData m !! symbol).
Proof.
  intros Htracked. split; [| split].
  - intros msg Hsnapshot. unfold pollPrices. rewrite Hsnapshot. reflexivity.
  - intros tickers trades Hsnapshot Htrades.
    rewrite (pollPrices_split _ _ _ _ _ tickers Hsnapshot).
    apply (pollSymbol_loop ParseFloat rest clock); [| exact Htrades].
    rewrite zip_seq_snd. exact Htracked.
  - intros msg Htrades.
    destruct (GetAllTickers rest) as [tickers | msg'] eqn:Hsnapshot.
    2: { unfold pollPrices. rewrite Hsnapshot. reflexivity. }
    rewrite (pollPrices_split _ _ _ _ _ tickers Hsnapshot).
    destruct (pollTicker_loop ParseFloat clock symbols
                (zip (seq 0 (length tickers)) tickers) m) as (Hvol1 & _).
    rewrite <- Hvol1.
    apply (pollSymbol_loop ParseFloat rest clock). right. eauto.
Qed.

Lemma pollPrices_sets_volume_witness :
  pollPrices parseDecimal offlineClient tickingClock ["BTCUSDT"] busyStore
  = busyStore
  /\ exists at',
       volumeData
         (pollPrices parseDecimal tickerSnapshot tickingClock ["BTCUSDT"]
            busyStore)
         !! "BTCUSDT"
       = Some (VolumeData.mk 200 at').
Proof.
  assert (Htracked : "BTCUSDT" ∈ ["BTCUSDT"]) by apply list_elem_of_here.
  split.
  - destruct (pollPrices_sets_volume parseDecimal offlineClient tickingClock
                ["BTCUSDT"] busyStore "BTCUSDT" Htracked) as (Hoffline & _).
    apply (Hoffline "request failed"). reflexivity.
  - destruct (pollPrices_sets_volume parseDecimal tickerSnapshot tickingClock
                ["BTCUSDT"] busyStore "BTCUSDT" Htracked) as (_ & Hset & _).
    apply (Hset [TickerResponse.mk "BTCUSDT" "100"] [recentTrade]);
      reflexivity.
Defined.

(** X7. [pollPrices] never drops or reorders a recorded price sample: the
    history a symbol had before the call is a prefix of the history it has
    after it. *)
Theorem pollPrices_keeps_samples (ParseFloat : string -> result float)
    (rest : RESTClient) (clock : nat -> Time) (symbols : list string)
    (m : Monitor) (symbol : string) (history : list PriceData.t) :
  priceHistory m !! symbol = Some history ->
  exists added,
    priceHistory (pollPrices ParseFloat rest clock symbols m) !! symbol
    = Some (history ++ added).
Proof.
  intros Hhist.
  destruct (GetAllTickers rest) as [tickers | msg] eqn:Hsnapshot.
  2: { exists []. unfold pollPrices. rewrite Hsnapshot, app_nil_r. exact Hhist. }
  rewrite (pollPrices_split _ _ _ _ _ tickers Hsnapshot).
  destruct (pollTicker_loop ParseFloat clock symbols
              (zip (seq 0 (length tickers)) tickers) m) as (_ & _ & Hgrow).
  destruct (Hgrow symbol history Hhist) as [added Hadded].
  exists added.
  destruct (pollSymbol_loop ParseFloat rest clock
              (zip (seq (length tickers) (length symbols)) symbols)
              (foldl
                 (fun m '(k, ticker) =>
                    pollTicker ParseFloat symbols (clock k) ticker m)
                 m (zip (seq 0 (length tickers)) tickers)))
    as (Hph & _).
  rewrite Hph. exact Hadded.
Qed.

Lemma pollPrices_keeps_samples_witness :
  exists added,
    priceHistory
      (pollPrices parseDecimal tickerSnapshot tickingClock ["BTCUSDT"]
         dropStore)
      !! "BTCUSDT"
    = Some (dropHistory ++ added).
Proof.
  apply (pollPrices_keeps_samples parseDecimal tickerSnapshot tickingClock
           ["BTCUSDT"] dropStore "BTCUSDT" dropHistory).
  reflexivity.
Defined.

(** ** More on the analysis pass *)

Section AnalysisAlerts.

Variables (db : Database) (bot : Bot) (settings : Settings.t) (now : Time).

(** What an iteration adds to the alerts: nothing, or one alert for its
    own symbol. *)
Lemma analyzeSymbol_sent symbol history st :
  sent (analyzeSymbol db bot settings now symbol history st) = sent st
  \/ exists alert,
       alertSymbol alert = symbol
       /\ sent (analyzeSymbol db bot settings now symbol history st)
          = sent st ++ [alert].
Proof.
  destruct (analyzeSymbol_cases db bot settings now symbol history st)
    as [(alert & _ & ->) | (_ & ->)]; [right | left; reflexivity].
  eexists. split; [| reflexivity]. reflexivity.
Qed.

Lemma analyzeRange_symbols_NoDup order st :
  NoDup order.*1 ->
  NoDup (alertSymbol <$> sent st) ->
  (forall alert, alert ∈ sent st -> alertSymbol alert ∉ order.*1) ->
  NoDup (alertSymbol <$> sent (analyzeRange db bot settings now order st)).
Proof.
  revert st. induction order as [| [symbol history] order IH];
    intros st Horder Hsent Hfresh; [exact Hsent |].
  rewrite analyzeRange_cons.
  cbn [fmap list_fmap fst] in Horder, Hfresh.
  apply NoDup_cons in Horder as [Hhead Horder].
  destruct (analyzeSymbol_sent symbol history st) as [Hsame | (alert & Hsym & Hmore)].
  - apply IH; [exact Horder | rewrite Hsame; exact Hsent |].
    rewrite Hsame. intros a Ha Hin. apply (Hfresh a Ha).
    apply elem_of_cons. right. exact Hin.
  - apply IH; [exact Horder | |].
    + rewrite Hmore, fmap_app. cbn. apply NoDup_app.
      split; [exact Hsent |]. split; [| apply NoDup_singleton].
      intros s Hin ->%list_elem_of_singleton.
      apply list_elem_of_fmap in Hin as (a & Heq & Ha).
      apply (Hfresh a Ha). rewrite <- Heq, Hsym. apply list_elem_of_here.
    + rewrite Hmore. intros a [Ha | ->%list_elem_of_singleton]%elem_of_app Hin.
      * apply (Hfresh a Ha). apply elem_of_cons. right. exact Hin.
      * rewrite Hsym in Hin. contradiction.
Qed.

(** The deliveries logged as failed are those of the alerts sent for
    which the bot returned an error, in order. *)
Lemma analyzeRange_failed order st :
  failed st = omap (failedDelivery bot) (sent st) ->
  failed (analyzeRange db bot settings now order st)
  = omap (failedDelivery bot)
      (sent (analyzeRange db bot settings now order st)).
Proof.
  revert st. induction order as [| [symbol history] order IH]; intros st Hst;
    [exact Hst |].
  rewrite analyzeRange_cons. apply IH.
  destruct (analyzeSymbol_cases db bot settings now symbol history st)
    as [(alert & _ & ->) | (_ & ->)]; [| exact Hst].
  unfold fireAlert; cbn. rewrite omap_app, <- Hst. cbn.
  unfold failedDelivery; cbn.
  destruct (SendAlert bot symbol (alertChange alert) (alertVolume alert) now);
    [reflexivity | rewrite app_nil_r; reflexivity].
Qed.

End AnalysisAlerts.

Lemma is_nan_spec (x : float) : is_nan x = true -> Prim2SF x = S754_nan.
Proof.
  unfold is_nan. rewrite eqb_spec. unfold SFeqb.
  destruct (Prim2SF x) as [s | s | | s mant e]; cbn; try reflexivity.
  - discriminate.
  - destruct s; discriminate.
  - rewrite Z.compare_refl, Pos.compare_cont_refl. destruct s; discriminate.
Qed.

Lemma nan_threshold_never_met (threshold change : float) :
  is_nan threshold = true ->
  (threshold <=? change)%float || (change <=? - threshold)%float = false.
Proof.
  intros Hnan%is_nan_spec.
  rewrite !leb_spec, opp_spec, Hnan. unfold SFleb. cbn.
  destruct (Prim2SF change); reflexivity.
Qed.

Lemma positive_threshold_needs_change (threshold : float) :
  (0 <? threshold)%float = true ->
  (threshold <=? 0)%float || (0 <=? - threshold)%float = false.
Proof.
  rewrite ltb_spec, !leb_spec, opp_spec, Prim2SF_zero. unfold SFltb, SFleb.
  destruct (Prim2SF threshold) as [[] | [] | | [] mant e]; cbn;
    congruence.
Qed.

Lemma analyzeData_fired_dec (db : Database) (bot : Bot) (now : Time)
    (order : list (string * list PriceData.t)) (m : Monitor)
    (symbol : string) :
  rangeOrder m order ->
  fired (analyzeData db bot now order m) symbol
  \/ ~ fired (analyzeData db bot now order m) symbol.
Proof.
  intros Horder.
  rewrite (analyzeData_fired db bot now order m Horder symbol).
  destruct (GetSettings db) as [settings | msg] eqn:Hsettings.
  2: { right. intros (s & h & a & Hs & _). discriminate Hs. }
  destruct (priceHistory m !! symbol) as [history |] eqn:Hhist.
  2: { right. intros (s & h & a & _ & Hh & _). discriminate Hh. }
  destruct (analyzeSymbol_cases db bot settings now symbol history
              {| store := m; sent := []; failed := [] |})
    as [(alert & Hy & _) | (Hnone & _)]; cbn in *.
  - left. exists settings, history, alert. auto.
  - right. intros (s & h & a & Hs & Hh & Hy).
    injection Hs as <-. injection Hh as <-. exact (Hnone a Hy).
Qed.

(** X8. A pass hands the bot at most one alert per symbol: no two of the
    alerts it sends name the same symbol. *)
Theorem one_alert_per_symbol (db : Database) (bot : Bot) (now : Time)
    (order : list (string * list PriceData.t)) (m : Monitor) :
  rangeOrder m order ->
  NoDup (alertSymbol <$> sent (analyzeData db bot now order m)).
Proof.
  intros Horder. unfold analyzeData.
  destruct (GetSettings db) as [settings | msg]; [| apply NoDup_nil_2].
  apply analyzeRange_symbols_NoDup.
  - exact (rangeOrder_NoDup m order Horder).
  - apply NoDup_nil_2.
  - intros alert Hin. inversion Hin.
Qed.

Lemma one_alert_per_symbol_witness :
  NoDup
    (alertSymbol
       <$> sent
             (analyzeData openDatabase telegramBot (5 * Second)
                (map_to_list (priceHistory dropStore)) dropStore)).
Proof.
  apply (one_alert_per_symbol openDatabase telegramBot (5 * Second)
           (map_to_list (priceHistory dropStore)) dropStore).
  exact dropStore_order.
Defined.

(** X9. What an alert carries. Every alert a pass sends is stamped with
    the [now] of the pass, reports the volume the symbol's accumulator held
    when the pass began and the percent change between the start price of
    the symbol's history and its latest price; that volume is at least
    [MinVolume] and that change is at least [PriceChange] in absolute
    value. *)
Theorem alert_reports_what_was_checked (db : Database) (bot : Bot)
    (now : Time) (order : list (string * list PriceData.t)) (m : Monitor)
    (alert : AlertEvent) :
  rangeOrder m order ->
  alert ∈ sent (analyzeData db bot now order m) ->
  alertAt alert = now
  /\ exists settings history current volData startPrice,
       GetSettings db = Ok settings
       /\ priceHistory m !! alertSymbol alert = Some history
       /\ last history = Some current
       /\ volumeData m !! alertSymbol alert = Some volData
       /\ startPriceLookup history (cutoffTime now settings) = Ok startPrice
       /\ alertVolume alert = VolumeData.Volume volData
       /\ alertChange alert
          = percentChange startPrice (PriceData.Price current)
       /\ Settings.MinVolume settings <= alertVolume alert
       /\ (Settings.PriceChange settings <=? abs (alertChange alert))%float
          = true.
Proof.
  intros Horder Hin.
  apply (analyzeData_sent db bot now order m Horder) in Hin
    as (settings & history & Hs & Hh
        & (c & v & sp & (Hl & _ & _ & Hv & _) & Hsp & Hmet & Halert)).
  unfold conditionsMet in Hmet.
  apply andb_true_iff in Hmet as [Hmin Hmove]. apply Z.leb_le in Hmin.
  rewrite <- leb_abs in Hmove.
  rewrite Halert in *. cbn in *.
  split; [reflexivity |].
  exists settings, history, c, v, sp. repeat split; assumption.
Qed.

Lemma alert_reports_what_was_checked_witness :
  alertAt (Build_AlertEvent "BTCUSDT" (-2)%float 5000 (5 * Second))
  = 5 * Second
  /\ exists settings history current volData startPrice,
       GetSettings openDatabase = Ok settings
       /\ priceHistory dropStore !! "BTCUSDT" = Some history
       /\ last history = Some current
       /\ volumeData dropStore !! "BTCUSDT" = Some volData
       /\ startPriceLookup history (cutoffTime (5 * Second) settings)
          = Ok startPrice
       /\ 5000 = VolumeData.Volume volData
       /\ (-2)%float = percentChange startPrice (PriceData.Price current)
       /\ Settings.MinVolume settings <= 5000
       /\ (Settings.PriceChange settings <=? abs (-2))%float = true.
Proof.
  apply (alert_reports_what_was_checked openDatabase telegramBot (5 * Second)
           (map_to_list (priceHistory dropStore)) dropStore
           (Build_AlertEvent "BTCUSDT" (-2)%float 5000 (5 * Second))).
  - exact dropStore_order.
  - vm_compute. apply list_elem_of_here.
Defined.

(** X10. The order in which the [range] loop visits the map does not
    matter: two passes over the same store at the same instant, in any two
    visiting orders, leave the same store and send the same alerts, up to
    the order of the alerts. *)
Theorem analysis_order_independent (db : Database) (bot : Bot) (now : Time)
    (order order' : list (string * list PriceData.t)) (m : Monitor) :
  rangeOrder m order ->
  rangeOrder m order' ->
  store (analyzeData db bot now order m)
  = store (analyzeData db bot now order' m)
  /\ sent (analyzeData db bot now order m)
     ≡ₚ sent (analyzeData db bot now order' m).
Proof.
  intros Horder Horder'. split.
  - apply Monitor_eq.
    + rewrite !analyzeData_priceHistory. reflexivity.
    + apply map_eq. intros symbol.
      destruct (analyzeData_volumeData db bot now order m Horder symbol)
        as [Hgone Hkept].
      destruct (analyzeData_volumeData db bot now order' m Horder' symbol)
        as [Hgone' Hkept'].
      pose proof (analyzeData_fired db bot now order m Horder symbol) as Hf.
      pose proof (analyzeData_fired db bot now order' m Horder' symbol) as Hf'.
      destruct (analyzeData_fired_dec db bot now order m symbol Horder)
        as [Hyes | Hno].
      * rewrite (Hgone Hyes). symmetry. apply Hgone', Hf', Hf, Hyes.
      * rewrite (Hkept Hno). symmetry. apply Hkept'.
        intros Hyes'. apply Hno, Hf, Hf', Hyes'.
  - apply NoDup_Permutation.
    + apply (NoDup_fmap_1 alertSymbol).
      unfold analyzeData.
      destruct (GetSettings db) as [settings | msg]; [| apply NoDup_nil_2].
      apply analyzeRange_symbols_NoDup;
        [exact (rangeOrder_NoDup m order Horder) | apply NoDup_nil_2 |].
      intros alert Hin. inversion Hin.
    + apply (NoDup_fmap_1 alertSymbol).
      unfold analyzeData.
      destruct (GetSettings db) as [settings | msg]; [| apply NoDup_nil_2].
      apply analyzeRange_symbols_NoDup;
        [exact (rangeOrder_NoDup m order' Horder') | apply NoDup_nil_2 |].
      intros alert Hin. inversion Hin.
    + intros alert.
      rewrite (analyzeData_sent db bot now order m Horder alert).
      rewrite (analyzeData_sent db bot now order' m Horder' alert).
      reflexivity.
Qed.

Lemma analysis_order_independent_witness :
  store
    (analyzeData openDatabase telegramBot (5 * Second)
       (map_to_list (priceHistory dropStore)) dropStore)
  = store
      (analyzeData openDatabase telegramBot (5 * Second)
         [("BTCUSDT", dropHistory)] dropStore)
  /\ sent
       (analyzeData openDatabase telegramBot (5 * Second)
          (map_to_list (priceHistory dropStore)) dropStore)
     ≡ₚ sent
          (analyzeData openDatabase telegramBot (5 * Second)
             [("BTCUSDT", dropHistory)] dropStore).
Proof.
  apply (analysis_order_independent openDatabase telegramBot (5 * Second)
           (map_to_list (priceHistory dropStore)) [("BTCUSDT", dropHistory)]
           dropStore).
  - exact dropStore_order.
  - unfold rangeOrder. reflexivity.
Defined.

(** X11. Two settings under which a symbol cannot fire. With a threshold
    that is not a number no symbol ever fires. With a positive threshold, a
    symbol whose start price is zero or negative does not fire, whatever
    its latest price and volume: its percent change is taken to be 0. *)
Theorem no_alert_without_change (db : Database) (bot : Bot) (now : Time)
    (order : list (string * list PriceData.t)) (m : Monitor)
    (settings : Settings.t) :
  rangeOrder m order ->
  GetSettings db = Ok settings ->
  (is_nan (Settings.PriceChange settings) = true ->
     forall symbol, ~ fired (analyzeData db bot now order m) symbol)
  /\ ((0 <? Settings.PriceChange settings)%float = true ->
        forall symbol history startPrice,
          priceHistory m !! symbol = Some history ->
          startPriceLookup history (cutoffTime now settings) = Ok startPrice ->
          (startPrice <=? 0)%float = true ->
          ~ fired (analyzeData db bot now order m) symbol).
Proof.
  intros Horder Hsettings. split.
  - intros Hnan symbol Hfired.
    apply (analyzeData_fired db bot now order m Horder) in Hfired
      as (s & h & a & Hs & _ & (c & v & sp & _ & _ & Hmet & _)).
    assert (s = settings) as -> by congruence.
    unfold conditionsMet in Hmet. apply andb_true_iff in Hmet as [_ Hmove].
    rewrite (nan_threshold_never_met _ _ Hnan) in Hmove. discriminate Hmove.
  - intros Hpos symbol history startPrice Hhist Hsp Hzero Hfired.
    apply (analyzeData_fired db bot now order m Horder) in Hfired
      as (s & h & a & Hs & Hh & (c & v & sp & _ & Hsp' & Hmet & _)).
    assert (s = settings) as -> by congruence.
    assert (h = history) as -> by congruence.
    assert (sp = startPrice) as -> by congruence.
    unfold conditionsMet, percentChange in Hmet.
    rewrite (leb_zero_not_ltb startPrice Hzero) in Hmet.
    apply andb_true_iff in Hmet as [_ Hmove].
    rewrite (positive_threshold_needs_change _ Hpos) in Hmove.
    discriminate Hmove.
Qed.

Lemma no_alert_without_change_witness :
  ~ fired
      (analyzeData nanDatabase telegramBot (5 * Second)
         (map_to_list (priceHistory dropStore)) dropStore)
      "BTCUSDT".
Proof.
  destruct (no_alert_without_change nanDatabase telegramBot (5 * Second)
              (map_to_list (priceHistory dropStore)) dropStore nanSettings
              dropStore_order eq_refl) as [Hnan _].
  apply Hnan. reflexivity.
Defined.

(** X12. The failure log of a pass. The deliveries a pass records as
    failed are exactly those of the alerts it sent for which [SendAlert]
    returned an error, in the order of the alerts, each with the symbol and
    the error. *)
Theorem failed_log_matches_errors (db : Database) (bot : Bot) (now : Time)
    (order : list (string * list PriceData.t)) (m : Monitor) :
  failed (analyzeData db bot now order m)
  = omap (failedDelivery bot) (sent (analyzeData db bot now order m)).
Proof.
  unfold analyzeData. destruct (GetSettings db) as [settings | msg];
    [| reflexivity].
  apply analyzeRange_failed. reflexivity.
Qed.


(** ** More on the pruning pass *)

Lemma filter_sublist {A : Type} (keep : A -> bool) (l : list A) :
  List.filter keep l `sublist_of` l.
Proof.
  induction l as [| x l IH]; cbn; [constructor |].
  destruct (keep x); [apply sublist_skip | apply sublist_cons]; exact IH.
Qed.

(** X14. What [cleanup] does to a price history. The history of a symbol
    is replaced by the samples stamped strictly after the horizon, in the
    order they had; the symbol's entry itself is never deleted, so a symbol
    whose samples are all pruned is left with an empty history. *)
Theorem cleanup_prunes_history (db : Database) (now : Time) (m : Monitor)
    (symbol : string) (history : list PriceData.t) :
  priceHistory m !! symbol = Some history ->
  exists kept,
    priceHistory (cleanup db now m) !! symbol = Some kept
    /\ kept `sublist_of` history
    /\ (forall sample,
          sample ∈ kept
          <-> sample ∈ history
              /\ retentionHorizon now < PriceData.Timestamp sample)
    /\ ((forall sample, sample ∈ history ->
           PriceData.Timestamp sample <= retentionHorizon now) ->
        kept = []).
Proof.
  intros Hhist. exists (pruneHistory (retentionHorizon now) history).
  rewrite cleanup_priceHistory, Hhist. cbn [fmap option_fmap option_map].
  rewrite pruneHistory_filter.
  split; [reflexivity |]. split; [apply filter_sublist |].
  assert (Hmem : forall sample,
             sample ∈ List.filter
                        (fun priceData =>
                           After (PriceData.Timestamp priceData)
                             (retentionHorizon now)) history
             <-> sample ∈ history
                 /\ retentionHorizon now < PriceData.Timestamp sample).
  { intros sample. rewrite !list_elem_of_In, filter_In.
    unfold After. rewrite Z.ltb_lt. reflexivity. }
  split; [exact Hmem |].
  intros Hold.
  destruct (List.filter _ history) as [| sample kept] eqn:Hkept;
    [reflexivity |].
  exfalso.
  destruct (proj1 (Hmem sample) (list_elem_of_here _ _)) as [Hin Hnew].
  specialize (Hold sample Hin). lia.
Qed.

Lemma cleanup_prunes_history_witness :
  exists kept,
    priceHistory (cleanup openDatabase (10 * Minute) boundaryStore)
      !! "BTCUSDT" = Some kept
    /\ kept = [].
Proof.
  destruct (cleanup_prunes_history openDatabase (10 * Minute) boundaryStore
              "BTCUSDT" [boundarySample] eq_refl)
    as (kept & Hkept & _ & _ & Hempty).
  exists kept. split; [exact Hkept |].
  apply Hempty. intros sample ->%list_elem_of_singleton.
  vm_compute. discriminate.
Defined.

(** X15. What [cleanup] does to an accumulator. An accumulator stamped
    strictly before the horizon is deleted; any other, one stamped exactly
    on the horizon included, is kept with its volume and stamp unchanged;
    and no accumulator is created. *)
Theorem cleanup_prunes_accumulator (db : Database) (now : Time) (m : Monitor)
    (symbol : string) :
  (forall volData,
     volumeData m !! symbol = Some volData ->
     (VolumeData.Timestamp volData < retentionHorizon now ->
        volumeData (cleanup db now m) !! symbol = None)
     /\ (retentionHorizon now <= VolumeData.Timestamp volData ->
           volumeData (cleanup db now m) !! symbol = Some volData))
  /\ (volumeData m !! symbol = None ->
        volumeData (cleanup db now m) !! symbol = None).
Proof.
  rewrite cleanup_volumeData. split.
  - intros volData ->. unfold Before.
    destruct (Z.ltb_spec (VolumeData.Timestamp volData) (retentionHorizon now));
      split; intros; first [reflexivity | lia].
  - intros ->. reflexivity.
Qed.

(** X16. A later pruning pass subsumes an earlier one: pruning at [now1]
    and then at a later instant [now2] leaves the store that pruning once
    at [now2] leaves. *)
Theorem cleanup_later_subsumes_earlier (db db' : Database) (now1 now2 : Time)
    (m : Monitor) :
  now1 <= now2 ->
  cleanup db' now2 (cleanup db now1 m) = cleanup db' now2 m.
Proof.
  intros Hlater.
  assert (Hhorizon : retentionHorizon now1 <= retentionHorizon now2)
    by (unfold retentionHorizon, Add; lia).
  apply Monitor_eq; apply map_eq; intros symbol.
  - rewrite !cleanup_priceHistory.
    destruct (priceHistory m !! symbol) as [history |]; cbn; [| reflexivity].
    f_equal. rewrite !pruneHistory_filter.
    induction history as [| sample history IH]; cbn; [reflexivity |].
    unfold After in *.
    destruct (Z.ltb_spec (retentionHorizon now1) (PriceData.Timestamp sample));
      destruct (Z.ltb_spec (retentionHorizon now2) (PriceData.Timestamp sample));
      cbn; try lia.
    + destruct (Z.ltb_spec (retentionHorizon now2)
                  (PriceData.Timestamp sample)); [| lia].
      rewrite IH. reflexivity.
    + destruct (Z.ltb_spec (retentionHorizon now2)
                  (PriceData.Timestamp sample)); [lia |].
      exact IH.
    + exact IH.
  - rewrite (cleanup_volumeData db' now2 (cleanup db now1 m)).
    rewrite !cleanup_volumeData.
    destruct (volumeData m !! symbol) as [volData |]; [| reflexivity].
    unfold Before.
    destruct (Z.ltb_spec (VolumeData.Timestamp volData) (retentionHorizon now1));
      destruct (Z.ltb_spec (VolumeData.Timestamp volData) (retentionHorizon now2));
      try reflexivity; lia.
Qed.

Lemma cleanup_later_subsumes_earlier_witness :
  cleanup openDatabase (11 * Minute)
    (cleanup openDatabase (10 * Minute) boundaryStore)
  = cleanup openDatabase (11 * Minute) boundaryStore.
Proof.
  apply (cleanup_later_subsumes_earlier openDatabase openDatabase
           (10 * Minute) (11 * Minute) boundaryStore).
  vm_compute. discriminate.
Defined.

(** X17. Pruning and analysis together. After [cleanup], a symbol whose
    accumulator was stamped before the horizon, or whose samples were all
    stamped at or before it, fires in no analysis pass over the pruned
    store, whatever the settings, the blacklist and the instant of the
    pass. *)
Theorem pruned_symbol_does_not_fire (db : Database) (now : Time)
    (m : Monitor) (symbol : string) :
  (forall volData,
     volumeData m !! symbol = Some volData ->
     VolumeData.Timestamp volData < retentionHorizon now)
  \/ (forall history sample,
        priceHistory m !! symbol = Some history -> sample ∈ history ->
        PriceData.Timestamp sample <= retentionHorizon now) ->
  forall db' bot now' order,
    rangeOrder (cleanup db now m) order ->
    ~ fired (analyzeData db' bot now' order (cleanup db now m)) symbol.
Proof.
  intros Hold db' bot now' order Horder Hfired.
  apply (analyzeData_fired db' bot now' order _ Horder) in Hfired
    as (s & h & a & _ & Hh & (c & v & sp & (Hl & _ & _ & Hv & _) & _)).
  destruct Hold as [Hstale | Hstale].
  - rewrite cleanup_volumeData in Hv.
    destruct (volumeData m !! symbol) as [volData |] eqn:Hvol;
      [| discriminate Hv].
    specialize (Hstale volData eq_refl). unfold Before in Hv.
    destruct (Z.ltb_spec (VolumeData.Timestamp volData) (retentionHorizon now));
      [discriminate Hv | lia].
  - rewrite cleanup_priceHistory in Hh.
    destruct (priceHistory m !! symbol) as [history |] eqn:Hhist;
      [| discriminate Hh].
    injection Hh as <-.
    apply last_Some in Hl as [front Hfront].
    assert (Hin : c ∈ pruneHistory (retentionHorizon now) history).
    { rewrite Hfront. apply elem_of_app. right. apply list_elem_of_here. }
    rewrite pruneHistory_filter in Hin.
    apply list_elem_of_In, filter_In in Hin as [Hin Hnew].
    unfold After in Hnew. apply Z.ltb_lt in Hnew.
    specialize (Hstale history c eq_refl (proj2 (list_elem_of_In _ _) Hin)).
    lia.
Qed.

Lemma pruned_symbol_does_not_fire_witness :
  ~ fired
      (analyzeData openDatabase telegramBot (10 * Minute)
         (map_to_list
            (priceHistory (cleanup openDatabase (10 * Minute) boundaryStore)))
         (cleanup openDatabase (10 * Minute) boundaryStore))
      "BTCUSDT".
Proof.
  apply (pruned_symbol_does_not_fire openDatabase (10 * Minute) boundaryStore
           "BTCUSDT").
  - right. intros history sample Hhist Hin.
    unfold boundaryStore in Hhist. cbn [priceHistory] in Hhist.
    apply lookup_singleton_Some in Hhist as [_ <-].
    apply list_elem_of_singleton in Hin as ->.
    vm_compute. discriminate.
  - unfold rangeOrder. reflexivity.
Defined.

(** ** More on the stream client *)

Lemma readMessages_loop (net : Client.Network) (fuel : nat) (c : Client.t) :
  Client.readMessages net fuel c
  = match Client.loop net fuel c with
    | inl c' => Some c'
    | inr _ => None
    end.
Proof.
  revert c. induction fuel as [| fuel IH]; intros c; cbn; [reflexivity |].
  destruct (Client.readTurn net c); [reflexivity | apply IH].
Qed.

(** A turn returns only on shutdown or without connection. *)
Lemma readTurn_returns (net : Client.Network) (c c' : Client.t) :
  Client.readTurn net c = inl c' ->
  Client.trace c' = Client.trace c
  /\ (Client.conn c' = None
      \/ Client.Done net (pred (Client.turns c')) = true).
Proof.
  unfold Client.readTurn.
  destruct (Client.Done net (Client.turns c)) eqn:Hdone.
  { intros [= <-]. cbn. auto. }
  cbn [Client.conn].
  destruct (Client.conn c) eqn:Hconn.
  2: { intros [= <-]. cbn. auto. }
  destruct (Client.ReadMessage net _); [discriminate |].
  destruct (Client.reconnect net _) as [c2 [err |]]; discriminate.
Qed.

(** X18. [readMessages] returns only in two cases: the shutdown signal was
    raised at the turn it returned on, or the client had no connection at
    that turn; and a shutdown that is already raised makes it return at
    once, before any read. *)
Theorem readMessages_returns_only_on_shutdown_or_nil (net : Client.Network)
    (c : Client.t) :
  (forall fuel c',
     Client.readMessages net fuel c = Some c' ->
     Client.conn c' = None
     \/ Client.Done net (pred (Client.turns c')) = true)
  /\ (Client.Done net (Client.turns c) = true ->
      forall fuel,
      exists c',
        Client.readMessages net (S fuel) c = Some c'
        /\ Client.trace c' = Client.trace c
        /\ Client.reads c' = Client.reads c).
Proof.
  split.
  - intros fuel. revert c. induction fuel as [| fuel IH]; intros c c' Hret;
      [discriminate Hret |].
    cbn in Hret. destruct (Client.readTurn net c) as [c1 | c1] eqn:Hturn.
    + injection Hret as <-. apply (readTurn_returns net c c1 Hturn).
    + apply (IH c1 c' Hret).
  - intros Hdone fuel. cbn. unfold Client.readTurn. rewrite Hdone.
    eexists. split; [reflexivity |]. split; reflexivity.
Qed.




(** X20. While reads succeed, the loop hands the messages to
    [handleMessage] in the order they arrive, one per turn, and neither
    closes the connection nor dials. *)
Theorem readMessages_handles_in_order (net : Client.Network)
    (messages : list string) (c : Client.t) (handle : nat) :
  (forall k, Client.Done net k = false) ->
  Client.conn c = Some handle ->
  (forall i message,
     messages !! i = Some message ->
     Client.ReadMessage net (Client.reads c + i) = Ok message) ->
  Client.loop net (length messages) c
  = inr
      {| Client.conn := Some handle;
         Client.dials := Client.dials c;
         Client.reads := Client.reads c + length messages;
         Client.turns := Client.turns c + length messages;
         Client.trace :=
           Client.trace c ++ (Client.MessageHandled <$> messages) |}.
Proof.
  intros Hrun. revert c.
  induction messages as [| message messages IH]; intros c Hconn Hreads.
  - cbn. rewrite !Nat.add_0_r, app_nil_r, <- Hconn. destruct c; reflexivity.
  - cbn [Client.loop length]. unfold Client.readTurn.
    rewrite Hrun. cbn [Client.conn Client.reads]. rewrite Hconn.
    pose proof (Hreads 0%nat message eq_refl) as Hfirst.
    rewrite Nat.add_0_r in Hfirst. rewrite Hfirst.
    rewrite IH.
    + unfold Client.act.
      cbn [Client.conn Client.dials Client.reads Client.turns Client.trace].
      rewrite <- app_assoc. cbn.
      rewrite <- !Nat.add_succ_comm. reflexivity.
    + reflexivity.
    + intros i later Hlater.
      unfold Client.act.
      cbn [Client.conn Client.dials Client.reads Client.turns Client.trace].
      rewrite Nat.add_succ_comm. apply (Hreads (S i) later Hlater).
Qed.

Lemma readMessages_handles_in_order_witness :
  Client.loop steadyNetwork 2 connected
  = inr
      {| Client.conn := Some 0%nat;
         Client.dials := 1;
         Client.reads := 2;
         Client.turns := 2;
         Client.trace :=
           [Client.MessageHandled "ping"; Client.MessageHandled "pong"] |}.
Proof.
  apply (readMessages_handles_in_order steadyNetwork ["ping"; "pong"]
           connected 0%nat).
  - intros k. reflexivity.
  - reflexivity.
  - intros [| [| i]] message Hmessage; cbn in Hmessage;
      try discriminate Hmessage; injection Hmessage as <-; reflexivity.
Defined.

(** X21. A reconnect that succeeds starts a second reader. When a read
    fails and the dial that follows succeeds, [Connect] starts a new
    [readMessages] on the new connection, and the loop that called
    [reconnect] does not return: it goes round again on that same
    connection, without the 5 s sleep. *)
Theorem reconnect_starts_another_reader (net : Client.Network) (c : Client.t)
    (handle handle' : nat) (readError : string) :
  Client.conn c = Some handle ->
  Client.Done net (Client.turns c) = false ->
  Client.ReadMessage net (Client.reads c) = Err readError ->
  Client.Dial net (Client.dials c) = Ok handle' ->
  exists c',
    Client.readTurn net c = inr c'
    /\ Client.conn c' = Some handle'
    /\ Client.trace c'
       = Client.trace c
         ++ [Client.ReadFailed; Client.ConnClosed; Client.Slept (2 * Second);
             Client.DialSucceeded handle'; Client.ReaderStarted].
Proof.
  intros Hconn Hrun Hread Hdial.
  destruct c as [conn0 dials0 reads0 turns0 trace0].
  cbn [Client.conn Client.dials Client.reads Client.turns Client.trace] in *.
  subst conn0.
  unfold Client.readTurn.
  cbn [Client.conn Client.dials Client.reads Client.turns Client.trace].
  rewrite Hrun, Hread.
  unfold Client.reconnect, Client.Connect, Client.act, Client.setConn.
  cbn [Client.conn Client.dials Client.reads Client.turns Client.trace].
  rewrite Hdial.
  eexists. split; [reflexivity |].
  cbn [Client.conn Client.dials Client.reads Client.turns Client.trace].
  split; [reflexivity |].
  rewrite <- !app_assoc. reflexivity.
Qed.

Lemma reconnect_starts_another_reader_witness :
  exists c',
    Client.readTurn flakyNetwork connected = inr c'
    /\ Client.conn c' = Some 1%nat
    /\ Client.trace c'
       = [Client.ReadFailed; Client.ConnClosed; Client.Slept (2 * Second);
          Client.DialSucceeded 1; Client.ReaderStarted].
Proof.
  apply (reconnect_starts_another_reader flakyNetwork connected 0%nat 1%nat
           "unexpected EOF"); reflexivity.
Defined.

(** ** Dispatch of stream frames *)

Section DispatchProperties.

Variable World : Type.
Variable decodeTrades : string -> result (list TradeData.t).
Variable decodeTickers : string -> result (list TickerData.t).

Lemma dispatch_snoc (handlers : list (Client.EventHandler World))
    (handler : Client.EventHandler World) (events : list Event) (w : World) :
  Client.dispatch World (handlers ++ [handler]) events w
  = foldl
      (fun w event => handler event (Client.dispatch World handlers [event] w))
      w events.
Proof.
  unfold Client.dispatch. revert w.
  induction events as [| event events IH]; intros w; cbn; [reflexivity |].
  rewrite foldl_app. cbn. apply IH.
Qed.

(** X22. Dispatch of a trade frame. A frame of the trade stream that
    decodes reaches the trade handlers only: registering a ticker handler
    does not change what the frame does. A handler registered with
    [OnTrade] is called after the handlers registered before it, trade by
    trade. A frame with an empty payload, a payload that does not decode,
    or an unknown stream name calls no handler. *)
Theorem handleStreamData_dispatches_trades
    (handlers : gmap string (list (Client.EventHandler World)))
    (handler : Client.EventHandler World) (data : string) (w : World) :
  Client.handleStreamData World decodeTrades decodeTickers
    (Client.OnTicker World handler handlers) "spot@public.deals.v3.api" data w
  = Client.handleStreamData World decodeTrades decodeTickers handlers
      "spot@public.deals.v3.api" data w
  /\ (forall trades,
        data <> "" ->
        decodeTrades data = Ok trades ->
        Client.handleStreamData World decodeTrades decodeTickers
          (Client.OnTrade World handler handlers) "spot@public.deals.v3.api"
          data w
        = foldl
            (fun w trade =>
               handler (TradeEvent trade)
                 (Client.dispatch World (Client.registered World handlers "trade")
                    [TradeEvent trade] w))
            w trades)
  /\ (forall stream,
        data = ""
        \/ (stream = "spot@public.deals.v3.api"
            /\ exists msg, decodeTrades data = Err msg)
        \/ (stream <> "spot@public.deals.v3.api"
            /\ stream <> "spot@public.ticker.v3.api") ->
        Client.handleStreamData World decodeTrades decodeTickers handlers
          stream data w
        = w).
Proof.
  split; [| split].
  - unfold Client.handleStreamData, Client.OnTicker, Client.registered.
    destruct (String.length data =? 0)%nat; [reflexivity |]. cbn.
    rewrite lookup_insert_ne by discriminate. reflexivity.
  - intros trades Hdata Hdecode.
    unfold Client.handleStreamData.
    destruct data as [| ch data]; [congruence |]. cbn [String.length Nat.eqb].
    cbn [String.eqb Ascii.eqb Bool.eqb andb]. rewrite Hdecode.
    unfold Client.OnTrade, Client.registered at 1.
    rewrite lookup_insert_eq. cbn [default from_option id].
    rewrite dispatch_snoc.
    clear Hdecode. revert w.
    induction trades as [| trade trades IH]; intros w; [reflexivity |].
    cbn [fmap list_fmap foldl]. apply IH.
  - intros stream Hcase. unfold Client.handleStreamData.
    destruct Hcase as [-> | [[-> [msg Hmsg]] | [Hdeals Hticker]]].
    + reflexivity.
    + destruct (String.length data =? 0)%nat; [reflexivity |].
      cbn. rewrite Hmsg. reflexivity.
    + destruct (String.length data =? 0)%nat; [reflexivity |].
      destruct (String.eqb_spec stream "spot@public.deals.v3.api");
        [contradiction |].
      destruct (String.eqb_spec stream "spot@public.ticker.v3.api");
        [contradiction | reflexivity].
Qed.

End DispatchProperties.

(** ** The volume emojis of an alert *)

Lemma length_append (s t : string) :
  String.length (String.append s t) = (String.length s + String.length t)%nat.
Proof.
  induction s as [| ch s IH]; simpl; [reflexivity | rewrite IH; reflexivity].
Qed.

Lemma length_repeated (s : string) (n : nat) :
  String.length (foldr String.append "" (replicate n s))
  = (n * String.length s)%nat.
Proof.
  induction n as [| n IH]; simpl; [reflexivity |].
  rewrite length_append, IH. reflexivity.
Qed.

(** The length, in bytes, of what [getVolumeEmojis] returns: four per
    emoji. *)
Lemma getVolumeEmojis_length (volume : Z) :
  - 2 ^ 63 <= volume < 2 ^ 63 ->
  exists emojis,
    Telegram.getVolumeEmojis volume = Ok emojis
    /\ Z.of_nat (String.length emojis)
       = if volume <? 10000 then 0
         else if volume <? 50000 then 4
         else if volume <? 100000 then 8
         else if volume <? 150000 then 12
         else if volume <? 200000 then 16
         else 4 + 4 * Z.min 10 ((volume - 200000) / 50000 + 3).
Proof.
  intros Hint. unfold Telegram.getVolumeEmojis.
  destruct (volume <? 10000); [eexists; split; reflexivity |].
  destruct (volume <? 50000); [eexists; split; reflexivity |].
  destruct (volume <? 100000); [eexists; split; reflexivity |].
  destruct (volume <? 150000); [eexists; split; reflexivity |].
  destruct (Z.ltb_spec volume 200000) as [Hlow | Hhigh];
    [eexists; split; reflexivity |].
  cbv zeta.
  rewrite (wrap64_id (volume - 200000)) by lia.
  rewrite Z.quot_div_nonneg by lia.
  assert (Hcount : 0 <= (volume - 200000) / 50000 < 2 ^ 62).
  { split; [apply Z.div_pos; lia |].
    apply Z.div_lt_upper_bound; lia. }
  rewrite (wrap64_id (_ + 3)) by lia.
  set (count := (volume - 200000) / 50000 + 3) in *.
  unfold Telegram.Repeat.
  destruct (Z.ltb_spec 10 count) as [Hcap | Hfit].
  - eexists. split; [reflexivity |].
    rewrite Z.min_l by lia. reflexivity.
  - destruct (Z.ltb_spec count 0) as [Hneg | Hpos]; [lia |].
    cbn [mbind result_bind]. eexists. split; [reflexivity |].
    rewrite length_append, length_repeated. rewrite Z.min_r by lia.
    cbn [String.length]. lia.
Qed.

(** X23. [getVolumeEmojis] never panics on an [int]; it returns at most
    eleven emojis (44 bytes), and a larger volume never gets fewer emojis
    than a smaller one. *)
Theorem getVolumeEmojis_monotone (volume volume' : Z) :
  - 2 ^ 63 <= volume ->
  volume <= volume' ->
  volume' < 2 ^ 63 ->
  exists emojis emojis',
    Telegram.getVolumeEmojis volume = Ok emojis
    /\ Telegram.getVolumeEmojis volume' = Ok emojis'
    /\ (String.length emojis <= String.length emojis' <= 44)%nat.
Proof.
  intros Hlow Hle Hhigh.
  destruct (getVolumeEmojis_length volume ltac:(lia)) as (emojis & Hok & Hlen).
  destruct (getVolumeEmojis_length volume' ltac:(lia))
    as (emojis' & Hok' & Hlen').
  exists emojis, emojis'. split; [exact Hok |]. split; [exact Hok' |].
  assert (Hdiv : (volume - 200000) / 50000 <= (volume' - 200000) / 50000)
    by (apply Z.div_le_mono; lia).
  revert Hlen Hlen'.
  destruct (Z.ltb_spec volume 10000), (Z.ltb_spec volume' 10000);
    destruct (Z.ltb_spec volume 50000), (Z.ltb_spec volume' 50000);
    destruct (Z.ltb_spec volume 100000), (Z.ltb_spec volume' 100000);
    destruct (Z.ltb_spec volume 150000), (Z.ltb_spec volume' 150000);
    destruct (Z.ltb_spec volume 200000), (Z.ltb_spec volume' 200000);
    try lia.
  all: assert (0 <= (volume' - 200000) / 50000) by (apply Z.div_pos; lia).
  all: try assert (0 <= (volume - 200000) / 50000) by (apply Z.div_pos; lia).
  all: lia.
Qed.

Lemma getVolumeEmojis_monotone_witness :
  exists emojis emojis',
    Telegram.getVolumeEmojis 60000 = Ok emojis
    /\ Telegram.getVolumeEmojis 1000000 = Ok emojis'
    /\ (String.length emojis <= String.length emojis' <= 44)%nat.
Proof.
  apply (getVolumeEmojis_monotone 60000 1000000); lia.
Defined.
